(** * Binary heap engine of [ands/ds/Heap.py]

    A shallow embedding of the classes [BHNode] and [BinaryHeap] and of the
    function [build_pretty_binary_heap].  Python objects are values of the
    type [pyobj]; heap objects live in a store indexed by locations, so that
    two heaps (the receiver and the donor of [merge]) can be told apart or
    aliased; methods are state transformers that either return or raise, and
    the store that a raising method leaves behind stays observable. *)

From Stdlib Require Import Ascii QArith Qround.
From stdpp Require Import gmap list strings.

Set Warnings "-register-all".

Local Open Scope string_scope.
Local Open Scope Z_scope.

(** ** Python objects *)

(** A [float]: a finite one is the rational it denotes; the others are the
    two infinities and NaN. *)
Inductive pyfloat : Type :=
| Finite (q : Q)
| Infinity (negative : bool)
| NaN.

(** The objects that keys, values and constructor arguments range over.
    [PyNode k v] is an instance of [BHNode] whose attributes are [key = k]
    and [value = v]. *)
Inductive pyobj : Type :=
| PyNone
| PyBool (b : bool)
| PyInt (n : Z)
| PyFloat (f : pyfloat)
| PyStr (s : string)
| PyTuple (xs : list pyobj)
| PyList (xs : list pyobj)
| PyNode (k v : pyobj).

(** The exceptions raised by the module and by the builtins it calls, each
    with its message.  [OtherError cls msg] is an exception of another class
    ([OverflowError], [ZeroDivisionError], ...), by the name of the class. *)
Inductive exn : Type :=
| ValueError (msg : string)
| TypeError (msg : string)
| IndexError (msg : string)
| AttributeError (msg : string)
| AssertionError
| OtherError (cls msg : string).

(** The class of an exception, which is what an [except] clause selects on. *)
Inductive exn_class : Type :=
| CValueError | CTypeError | CIndexError | CAttributeError | CAssertionError
| COther (cls : string).

Definition class_of (e : exn) : exn_class :=
  match e with
  | ValueError _ => CValueError
  | TypeError _ => CTypeError
  | IndexError _ => CIndexError
  | AttributeError _ => CAttributeError
  | AssertionError => CAssertionError
  | OtherError cls _ => COther cls
  end.

(** A call either returns a value or raises. *)
Inductive outcome (A : Type) : Type :=
| Return (a : A)
| Raise (e : exn).
Arguments Return {A} a.
Arguments Raise {A} e.

Definition raises {A} (r : outcome A) : Prop := exists e, r = Raise e.

Definition obind {A B} (r : outcome A) (k : A -> outcome B) : outcome B :=
  match r with
  | Return a => k a
  | Raise e => Raise e
  end.

Notation "'try' x <- r 'in' k" := (obind r (fun x => k))
  (at level 10, x name, r at level 100, k at level 200).

(** ** Builtins *)

Definition is_none (x : pyobj) : bool :=
  match x with PyNone => true | _ => false end.

(** [type(x).__name__] *)
Definition type_name (x : pyobj) : string :=
  match x with
  | PyNone => "NoneType"
  | PyBool _ => "bool"
  | PyInt _ => "int"
  | PyFloat _ => "float"
  | PyStr _ => "str"
  | PyTuple _ => "tuple"
  | PyList _ => "list"
  | PyNode _ _ => "BHNode"
  end.

(** [isinstance(x, int)]: [bool] is a subclass of [int]. *)
Definition isinstance_int (x : pyobj) : bool :=
  match x with PyBool _ | PyInt _ => true | _ => false end.

(** [isinstance(x, (int, float))] *)
Definition isinstance_int_float (x : pyobj) : bool :=
  match x with PyBool _ | PyInt _ | PyFloat _ => true | _ => false end.

(** [isinstance(x, BHNode)] *)
Definition isinstance_BHNode (x : pyobj) : bool :=
  match x with PyNode _ _ => true | _ => false end.

(** The integer an [int] instance stands for. *)
Definition int_value (x : pyobj) : option Z :=
  match x with
  | PyInt n => Some n
  | PyBool b => Some (Z.b2z b)
  | _ => None
  end.

(** The characters of a string, each as a string of length one. *)
Fixpoint chars (s : string) : list pyobj :=
  match s with
  | EmptyString => []
  | String c rest => PyStr (String c EmptyString) :: chars rest
  end.

(** The items of a sized, indexable object; [None] for the others. *)
Definition items (x : pyobj) : option (list pyobj) :=
  match x with
  | PyStr s => Some (chars s)
  | PyTuple xs | PyList xs => Some xs
  | _ => None
  end.

(** [len(x)] *)
Definition py_len (x : pyobj) : outcome Z :=
  match items x with
  | Some xs => Return (Z.of_nat (length xs))
  | None => Raise (TypeError ("object of type '" ++ type_name x ++ "' has no len()"))
  end.

(** [x[i]] for a non-negative [i] *)
Definition py_getitem (x : pyobj) (i : nat) : outcome pyobj :=
  match items x with
  | Some xs =>
      match xs !! i with
      | Some y => Return y
      | None => Raise (IndexError (type_name x ++ " index out of range"))
      end
  | None => Raise (TypeError ("'" ++ type_name x ++ "' object is not subscriptable"))
  end.

(** The number a [bool], [int] or [float] stands for; an [int] is compared
    with a [float] by its exact value. *)
Definition num_value (x : pyobj) : option pyfloat :=
  match x with
  | PyBool b => Some (Finite (inject_Z (Z.b2z b)))
  | PyInt n => Some (Finite (inject_Z n))
  | PyFloat f => Some f
  | _ => None
  end.

(** [a == b] on numbers: NaN equals nothing, itself included. *)
Definition float_eq (a b : pyfloat) : bool :=
  match a, b with
  | Finite p, Finite q => Qeq_bool p q
  | Infinity s, Infinity t => Bool.eqb s t
  | _, _ => false
  end.

(** [a <= b] on numbers: every comparison with NaN is false. *)
Definition float_le (a b : pyfloat) : bool :=
  match a, b with
  | NaN, _ | _, NaN => false
  | Infinity true, _ => true
  | _, Infinity false => true
  | Infinity false, _ => false
  | _, Infinity true => false
  | Finite p, Finite q => Qle_bool p q
  end.

Definition is_nan (a : pyfloat) : bool :=
  match a with NaN => true | _ => false end.

(** [a == b].  Numbers compare by value; strings, tuples and lists by
    content; an object of another class never equals them.  A tuple compares
    its items up to the shorter length before it looks at the lengths, a list
    looks at the lengths first.  Items are compared by value: the shortcut
    that a tuple or list takes for an item that is the very same object on
    both sides shows only when that item is or holds a NaN, and objects here
    have no identity.  When one side is a [BHNode] the comparison is
    [BHNode.__eq__] (reflected when the node is on the right), which reads
    the attribute [key] of the other side. *)
Fixpoint py_eq (a b : pyobj) {struct a} : outcome bool :=
  let fix items_eq (xs ys : list pyobj) {struct xs} : outcome bool :=
    match xs, ys with
    | x :: xs', y :: ys' =>
        try e <- py_eq x y in
        if e then items_eq xs' ys' else Return false
    | [], [] => Return true
    | _, _ => Return false
    end in
  match a, b with
  | PyNode k1 v1, PyNode k2 v2 =>
      try e <- py_eq k1 k2 in
      if e then py_eq v1 v2 else Return false
  | PyNode _ _, o | o, PyNode _ _ =>
      Raise (AttributeError ("'" ++ type_name o ++ "' object has no attribute 'key'"))
  | PyNone, PyNone => Return true
  | PyStr s, PyStr t => Return (String.eqb s t)
  | PyTuple xs, PyTuple ys => items_eq xs ys
  | PyList xs, PyList ys =>
      if Nat.eqb (length xs) (length ys) then items_eq xs ys else Return false
  | _, _ =>
      match num_value a, num_value b with
      | Some p, Some q => Return (float_eq p q)
      | _, _ => Return false
      end
  end.

(** [a <= b].  Numbers compare by value, strings, tuples and lists
    lexicographically; other pairs of builtin classes are unordered.  With a
    [BHNode] on one side the comparison is [BHNode.__le__] (or the reflected
    [BHNode.__ge__]), which reads the attribute [key] of the other side. *)
Fixpoint py_le (a b : pyobj) {struct a} : outcome bool :=
  let fix items_le (xs ys : list pyobj) {struct xs} : outcome bool :=
    match xs, ys with
    | [], _ => Return true
    | _ :: _, [] => Return false
    | x :: xs', y :: ys' =>
        try e <- py_eq x y in
        if e then items_le xs' ys' else py_le x y
    end in
  match a, b with
  | PyNode k1 _, PyNode k2 _ => py_le k1 k2
  | PyNode _ _, o | o, PyNode _ _ =>
      Raise (AttributeError ("'" ++ type_name o ++ "' object has no attribute 'key'"))
  | PyStr s, PyStr t => Return (String.leb s t)
  | PyTuple xs, PyTuple ys => items_le xs ys
  | PyList xs, PyList ys => items_le xs ys
  | _, _ =>
      match num_value a, num_value b with
      | Some p, Some q => Return (float_le p q)
      | _, _ =>
          Raise (TypeError ("'<=' not supported between instances of '"
                            ++ type_name a ++ "' and '" ++ type_name b ++ "'"))
      end
  end.

(** [a >= b], the mirror image of [a <= b]. *)
Fixpoint py_ge (a b : pyobj) {struct a} : outcome bool :=
  let fix items_ge (xs ys : list pyobj) {struct xs} : outcome bool :=
    match xs, ys with
    | _, [] => Return true
    | [], _ :: _ => Return false
    | x :: xs', y :: ys' =>
        try e <- py_eq x y in
        if e then items_ge xs' ys' else py_ge x y
    end in
  match a, b with
  | PyNode k1 _, PyNode k2 _ => py_ge k1 k2
  | PyNode _ _, o | o, PyNode _ _ =>
      Raise (AttributeError ("'" ++ type_name o ++ "' object has no attribute 'key'"))
  | PyStr s, PyStr t => Return (String.leb t s)
  | PyTuple xs, PyTuple ys => items_ge xs ys
  | PyList xs, PyList ys => items_ge xs ys
  | _, _ =>
      match num_value a, num_value b with
      | Some p, Some q => Return (float_le q p)
      | _, _ =>
          Raise (TypeError ("'>=' not supported between instances of '"
                            ++ type_name a ++ "' and '" ++ type_name b ++ "'"))
      end
  end.

(** ** class BHNode *)

Record BHNode : Type := mkBHNode { key : pyobj; value : pyobj }.

Module BHNode.

(** [BHNode(key, value=None)] *)
Definition __init__ (key value : pyobj) : outcome BHNode :=
  if is_none key then Raise (ValueError "key cannot be None.")
  else Return (mkBHNode key (if negb (is_none value) then value else key)).

(** [self == o] for two nodes *)
Definition __eq__ (self o : BHNode) : outcome bool :=
  try e <- py_eq (key self) (key o) in
  if e then py_eq (value self) (value o) else Return false.

(** [self <= o] for two nodes *)
Definition __le__ (self o : BHNode) : outcome bool :=
  py_le (key self) (key o).

(** [self != o] *)
Definition __ne__ (self o : BHNode) : outcome bool :=
  try e <- __eq__ self o in
  Return (negb e).

(** [self >= o] *)
Definition __ge__ (self o : BHNode) : outcome bool :=
  py_ge (key self) (key o).

(** [self < o] *)
Definition __lt__ (self o : BHNode) : outcome bool :=
  try ge <- __ge__ self o in
  Return (negb ge).

(** [self > o] *)
Definition __gt__ (self o : BHNode) : outcome bool :=
  try le <- __le__ self o in
  Return (negb le).

End BHNode.

(** ** The store of heap objects *)

(** The identity of a [BinaryHeap] instance. *)
Definition loc : Type := positive.

(** The calls of the two hooks, in the order in which they were made. *)
Inductive call : Type :=
| PushDown (self : loc) (i : Z)
| PushUp (self : loc) (i : Z).

(** [heaps] maps every live heap object to the list held by its attribute
    [heap]; [calls] is the history of hook calls. *)
Record pystate : Type := mkState {
  heaps : gmap loc (list BHNode);
  calls : list call
}.

(** A method is a state transformer; a raised exception does not undo what
    was written to the store before it. *)
Definition M (A : Type) : Type := pystate -> outcome A * pystate.

Definition ret {A} (a : A) : M A := fun st => (Return a, st).

Definition raise {A} (e : exn) : M A := fun st => (Raise e, st).

Definition lift {A} (r : outcome A) : M A := fun st => (r, st).

Definition bind {A B} (m : M A) (k : A -> M B) : M B :=
  fun st =>
    match m st with
    | (Return a, st') => k a st'
    | (Raise e, st') => (Raise e, st')
    end.

Notation "'let!' x ':=' m 'in' k" := (bind m (fun x => k))
  (at level 10, x name, m at level 100, k at level 200).
Notation "m ';;' k" := (bind m (fun _ => k))
  (at level 100, k at level 200, right associativity).

(** [self.heap] *)
Definition heap_of (st : pystate) (self : loc) : list BHNode :=
  default [] (heaps st !! self).

Definition get_heap (self : loc) : M (list BHNode) :=
  fun st => (Return (heap_of st self), st).

Definition set_heap (self : loc) (h : list BHNode) : M unit :=
  fun st => (Return tt, mkState (<[self := h]> (heaps st)) (calls st)).

(** [for x in xs: body(x)] *)
Fixpoint for_each {A} (xs : list A) (body : A -> M unit) : M unit :=
  match xs with
  | [] => ret tt
  | x :: rest => body x ;; for_each rest body
  end.

(** [range(start, stop, -1)] *)
Definition range_down (start stop : Z) : list Z :=
  map (fun k => start - Z.of_nat k) (seq 0 (Z.to_nat (start - stop))).

(** ** The ordering policy of a concrete heap *)

(** What a hook does to the list of the heap it is called on: the list it
    leaves, and whether it returned or raised. *)
Definition hook : Type := Z -> list BHNode -> outcome unit * list BHNode.

(** The two methods that [MinHeap], [MaxHeap] and [MinMaxHeap] override. *)
Class Variant : Type := {
  _push_down : hook;
  _push_up : hook
}.

(** The bodies that [BinaryHeap] itself gives to the two abstract methods:
    a lone [pass]. *)
Definition abstract_push_down : hook := fun _ h => (Return tt, h).
Definition abstract_push_up : hook := fun _ h => (Return tt, h).

Definition abstract_base : Variant :=
  {| _push_down := abstract_push_down; _push_up := abstract_push_up |}.

(** [self._push_down(i)] and [self._push_up(i)], dispatched on the class of
    [self], and recorded. *)
Definition call_hook (f : hook) (ev : loc -> Z -> call) (self : loc) (i : Z) : M unit :=
  fun st =>
    let '(r, h) := f i (heap_of st self) in
    (r, mkState (<[self := h]> (heaps st)) (calls st ++ [ev self i])).

(** ** Floating point *)



(** ** class BinaryHeap *)

Module BinaryHeap.
Section Methods.

Context {variant : Variant}.

(** [math.log2], applied to a positive [int]. *)
Variable math_log2 : Z -> Q.

Fixpoint create_nodes_loop (ls : list pyobj) (nodes : list BHNode) : outcome (list BHNode) :=
  match ls with
  | [] => Return nodes
  | x :: rest =>
      if isinstance_int_float x then
        try n <- BHNode.__init__ x PyNone in
        create_nodes_loop rest (nodes ++ [n])
      else
        try len_x <- py_len x in
        if negb (len_x =? 2) then
          Raise (ValueError "x should be a tuple or list of 2 elements.")
        else
          try x0 <- py_getitem x 0 in
          try x1 <- py_getitem x 1 in
          if is_none x0 || is_none x1 then
            Raise (ValueError "keys or values cannot be None.")
          else
            try n <- BHNode.__init__ x0 x1 in
            create_nodes_loop rest (nodes ++ [n])
  end.

Definition _create_list_of_heap_nodes (ls : list pyobj) : outcome (list BHNode) :=
  create_nodes_loop ls [].

Definition _build_heap (self : loc) : M unit :=
  let! h := get_heap self in
  if bool_decide (h <> []) then
    for_each (range_down (Z.of_nat (length h) / 2) (-1))
             (fun index => call_hook _push_down PushDown self index)
  else ret tt.

(** [self.heap = nodes] on a new object *)
Definition new_heap (nodes : list BHNode) : M loc :=
  fun st =>
    let self := fresh (dom (heaps st)) in
    (Return self, mkState (<[self := nodes]> (heaps st)) (calls st)).

(** [BinaryHeap(ls)], for a concrete subclass *)
Definition __init__ (ls : option (list pyobj)) : M loc :=
  let ls := match ls with None => [] | Some ls => ls end in
  let! nodes := lift (_create_list_of_heap_nodes ls) in
  let! self := new_heap nodes in
  _build_heap self ;;
  ret self.

Definition size (self : loc) : M Z :=
  let! h := get_heap self in
  ret (Z.of_nat (length h)).

Definition is_empty (self : loc) : M bool :=
  let! n := size self in
  ret (n =? 0).

Definition clear (self : loc) : M unit :=
  set_heap self [].

(** [if not isinstance(x, BHNode): x = BHNode(x)] *)
Definition as_node (x : pyobj) : outcome BHNode :=
  match x with
  | PyNode k v => Return (mkBHNode k v)
  | _ => BHNode.__init__ x PyNone
  end.

Definition add (self : loc) (x : pyobj) : M unit :=
  if is_none x then raise (ValueError "x cannot be None.")
  else
    let! x := lift (as_node x) in
    let! h := get_heap self in
    set_heap self (h ++ [x]) ;;
    let! n := size self in
    if 1 <? n then call_hook _push_up PushUp self (n - 1)
    else ret tt.

Fixpoint search_loop (x : BHNode) (i : Z) (h : list BHNode) : outcome Z :=
  match h with
  | [] => Return (-1)
  | node :: rest =>
      try e <- BHNode.__eq__ node x in
      if e then Return i else search_loop x (i + 1) rest
  end.

Definition search (self : loc) (x : pyobj) : M Z :=
  if is_none x then raise (ValueError "x cannot be None.")
  else
    let! x := lift (as_node x) in
    let! h := get_heap self in
    lift (search_loop x 0 h).

Fixpoint search_by_value_loop (val : pyobj) (i : Z) (h : list BHNode) : outcome Z :=
  match h with
  | [] => Return (-1)
  | node :: rest =>
      try e <- py_eq (value node) val in
      if e then Return i else search_by_value_loop val (i + 1) rest
  end.

Definition search_by_value (self : loc) (val : pyobj) : M Z :=
  let! h := get_heap self in
  lift (search_by_value_loop val 0 h).

Definition contains (self : loc) (x : pyobj) : M bool :=
  let! i := search self x in
  ret (negb (i =? -1)).

Definition merge (self o : loc) : M unit :=
  let! hs := get_heap self in
  let! ho := get_heap o in
  set_heap self (hs ++ ho) ;;
  _build_heap self.

Definition _is_good_index (self : loc) (i : pyobj) : M bool :=
  match int_value i with
  | None => raise (TypeError "indexes can only be int.")
  | Some i =>
      let! n := size self in
      ret (if (i <? 0) || (i >=? n) then false else true)
  end.

(** The index once [_is_good_index] has accepted it. *)
Definition index_value (i : pyobj) : Z := default 0 (int_value i).

Definition _swap (self : loc) (i j : pyobj) : M unit :=
  let! gi := _is_good_index self i in
  let! gj := (if gi then _is_good_index self j else ret false) in
  if gi && gj then
    let! h := get_heap self in
    let i := Z.to_nat (index_value i) in
    let j := Z.to_nat (index_value j) in
    match h !! i, h !! j with
    | Some a, Some b => set_heap self (<[j := a]> (<[i := b]> h))
    | _, _ => ret tt
    end
  else raise (IndexError "i or j are not valid indexes.").

Definition _parent_index (self : loc) (i : pyobj) : M Z :=
  let! g := _is_good_index self i in
  if negb g then raise (IndexError "i is not a valid index.")
  else ret (if index_value i =? 0 then -1 else (index_value i - 1) / 2).

Definition _left_index (self : loc) (i : pyobj) : M Z :=
  let! g := _is_good_index self i in
  if negb g then raise (IndexError "i is not a valid index.")
  else
    let left := index_value i * 2 + 1 in
    let! gl := _is_good_index self (PyInt left) in
    ret (if gl then left else -1).

Definition _right_index (self : loc) (i : pyobj) : M Z :=
  let! g := _is_good_index self i in
  if negb g then raise (IndexError "i is not a valid index.")
  else
    let right := index_value i * 2 + 2 in
    let! gr := _is_good_index self (PyInt right) in
    ret (if gr then right else -1).



Definition _grandparent_index (self : loc) (i : pyobj) : M Z :=
  let! p := _parent_index self i in
  if p =? -1 then ret (-1) else _parent_index self (PyInt p).

Definition _has_children (self : loc) (i : pyobj) : M bool :=
  let! g := _is_good_index self i in
  if negb g then raise (IndexError "i is not a valid index.")
  else
    let! l := _left_index self i in
    if negb (l =? -1) then ret true
    else
      let! r := _right_index self i in
      ret (negb (r =? -1)).

Definition _is_child (self : loc) (c i : pyobj) : M bool :=
  let! gc := _is_good_index self c in
  let! gi := (if negb gc then ret false else _is_good_index self i) in
  if negb gc || negb gi then raise (IndexError "i or c are not valid indexes.")
  else
    let! l := _left_index self i in
    if index_value c =? l then ret true
    else
      let! r := _right_index self i in
      ret (index_value c =? r).

Definition _is_grandchild (self : loc) (g i : pyobj) : M bool :=
  let! l := _left_index self i in
  if l =? -1 then
    let! r := _right_index self i in
    if negb (r =? -1) then raise AssertionError
    else
      let! gg := _is_good_index self g in
      if negb gg then raise (IndexError "g is not a valid index.")
      else ret false
  else
    let! r := _right_index self i in
    if r =? -1 then _is_child self g (PyInt l)
    else
      let! under_l := _is_child self g (PyInt l) in
      if under_l then ret true else _is_child self g (PyInt r).

Definition _is_parent (self : loc) (p i : pyobj) : M bool :=
  let! gp := _is_good_index self p in
  if negb gp then raise (IndexError "p is not a valid index.")
  else
    let! q := _parent_index self i in
    ret (q =? index_value p).

Definition _is_grandparent (self : loc) (g i : pyobj) : M bool :=
  let! gg := _is_good_index self g in
  if negb gg then raise (IndexError "g is not a valid index.")
  else
    let! p := _parent_index self i in
    if p =? -1 then ret false else _is_parent self g (PyInt p).

End Methods.
End BinaryHeap.

(** ** build_pretty_binary_heap *)

(** [s * n] *)
Definition str_repeat (s : string) (n : Z) : string :=
  fold_right String.append "" (replicate (Z.to_nat n) s).

(** [s.center(width, fill)] *)
Definition center (s : string) (width : Z) (fill : ascii) : string :=
  let marg := width - Z.of_nat (String.length s) in
  if marg <=? 0 then s
  else
    let left := marg / 2 + Z.land (Z.land marg width) 1 in
    str_repeat (String fill "") left ++ s ++ str_repeat (String fill "") (marg - left).

Definition newline : string := String (ascii_of_nat 10) "".

Section Printer.

(** [math.log(x, base)] on two positive [int]s. *)
Variable math_log : Z -> Z -> Q.

(** [str(x)] for an object whose class is one of the builtins; it raises
    for some objects, an [int] of too many digits for one. *)
Variable builtin_str : pyobj -> outcome string.

(** [int(math.floor((total_width * h_space) / 2 ** row))] where the float
    arithmetic rounds, overflows or divides by zero. *)
Variable inexact_column_width : Z -> Z -> outcome Z.

(** [str(x)]; [BHNode.__str__] is [str(self.key)]. *)
Fixpoint py_str (x : pyobj) : outcome string :=
  match x with
  | PyNode k _ => py_str k
  | _ => builtin_str x
  end.

Definition h_space : Q := 3.
Definition v_space : Z := 2.

(** [int(math.floor((total_width * h_space) / columns))] for
    [columns = 2 ** row].  The product and the quotient are floats.  While
    the product is an integer of at most 53 bits and [columns] a power of two
    that a float holds, no operation rounds and the result is the floor of
    the exact quotient; elsewhere the result is that of the float
    operations, which may also raise [OverflowError]. *)
Definition column_width_of (total_width row : Z) : outcome Z :=
  if (Z.abs (3 * total_width) <=? 2 ^ 53) && (0 <=? row) && (row <=? 1000) then
    let columns := Qpower 2 row in
    Return (Qfloor ((inject_Z total_width * h_space) / columns))
  else inexact_column_width total_width row.

Fixpoint pretty_rows (total_width : Z) (fill : ascii) (nodes : list pyobj)
    (i last_row : Z) (output : string) : outcome string :=
  match nodes with
  | [] => Return output
  | heap_node :: rest =>
      let row := if negb (i =? 0) then Qfloor (math_log (i + 1) 2) else 0 in
      let output :=
        if negb (row =? last_row) then output ++ str_repeat newline v_space
        else output in
      try column_width <- column_width_of total_width row in
      try text <- py_str heap_node in
      let output := output ++ center text column_width fill in
      pretty_rows total_width fill rest (i + 1) row output
  end.

(** [fill] is a string of one character, which is what [str.center] accepts. *)
Definition build_pretty_binary_heap (heap : pyobj) (total_width : Z) (fill : ascii)
    : outcome string :=
  match heap with
  | PyList nodes =>
      if Z.of_nat (length nodes) =? 0 then Return "Nothing to print: heap is empty."
      else
        try rows <- pretty_rows total_width fill nodes 0 (-1) "" in
        let s := rows ++ newline in
        let line_length := total_width + 15 in
        Return (s ++ (str_repeat "-" line_length ++ newline))
  | _ => Raise (TypeError "heap must be an list object")
  end.

End Printer.

(** [repr(h)] for a heap [h]: the tree of [h.heap]. *)
Definition heap_repr (math_log : Z -> Z -> Q) (builtin_str : pyobj -> outcome string)
    (inexact_column_width : Z -> Z -> outcome Z)
    (st : pystate) (self : loc) : outcome string :=
  build_pretty_binary_heap math_log builtin_str inexact_column_width
    (PyList (map (fun n => PyNode (key n) (value n)) (heap_of st self))) 36 " "%char.

(** ** max_sum_contiguous_subsequence.py *)

(** The four functions on a list of [int]s.  A read or a write outside the
    list raises [IndexError], as in Python; the loops keep their state in a
    tuple. *)
Module MSCS.

(** [range(a, b)] *)
Definition range (a b : nat) : list nat := List.seq a (b - a).

(** [seq[k]] *)
Definition getitem {A} (seq : list A) (k : nat) : outcome A :=
  match seq !! k with
  | Some v => Return v
  | None => Raise (IndexError "list index out of range")
  end.

(** [seq[k] = v] *)
Definition setitem {A} (seq : list A) (k : nat) (v : A) : outcome (list A) :=
  if bool_decide (k < length seq)%nat then Return (<[k := v]> seq)
  else Raise (IndexError "list assignment index out of range").

(** [for x in xs: state = body(x, state)] *)
Fixpoint for_range {S} (xs : list nat) (body : nat -> S -> outcome S) (state : S)
    : outcome S :=
  match xs with
  | [] => Return state
  | x :: rest =>
      try state' <- body x state in
      for_range rest body state'
  end.

Definition brute_force_mscs (seq : list Z) : outcome (Z * nat * nat) :=
  try first <- getitem seq 0 in
  for_range (range 0 (length seq))
    (fun i best =>
       for_range (range i (length seq))
         (fun j '(_max, start, end_) =>
            try _sum <- for_range (range i (j + 1))
                          (fun k _sum => try v <- getitem seq k in Return (_sum + v)) 0 in
            if _max <? _sum then Return (_sum, i, j)
            else Return (_max, start, end_))
         best)
    (first, 0%nat, 0%nat).

Definition better_brute_force_mscs (seq : list Z) : outcome (Z * nat * nat) :=
  try first <- getitem seq 0 in
  try final <-
    for_range (range 0 (length seq))
      (fun i '(_, _max, start, end_) =>
         for_range (range i (length seq))
           (fun j '(_sum, _max, start, end_) =>
              try v <- getitem seq j in
              let _sum := _sum + v in
              if _max <? _sum then Return (_sum, _sum, i, j)
              else Return (_sum, _max, start, end_))
           (0, _max, start, end_))
      (first, first, 0%nat, 0%nat) in
  let '(_, _max, start, end_) := final in
  Return (_max, start, end_).

Definition bottom_up_mscs (seq : list Z) : outcome (Z * nat * nat) :=
  let indices := replicate (length seq) 0%nat in
  let _sum := replicate (length seq) 0 in
  try first <- getitem seq 0 in
  try _sum <- setitem _sum 0 first in
  try _max <- getitem _sum 0 in
  try final <-
    for_range (range 1 (length seq))
      (fun i '(_sum, indices, _max, start, end_) =>
         try prev <- getitem _sum (i - 1) in
         try updated <-
           (if 0 <? prev then
              try v <- getitem seq i in
              try _sum <- setitem _sum i (prev + v) in
              try from <- getitem indices (i - 1) in
              try indices <- setitem indices i from in
              Return (_sum, indices)
            else
              try v <- getitem seq i in
              try _sum <- setitem _sum i v in
              try indices <- setitem indices i i in
              Return (_sum, indices)) in
         let '(_sum, indices) := updated in
         try here <- getitem _sum i in
         if _max <? here then
           try from <- getitem indices i in
           Return (_sum, indices, here, from, i)
         else Return (_sum, indices, _max, start, end_))
      (_sum, indices, _max, 0%nat, 0%nat) in
  let '(_, _, _max, start, end_) := final in
  Return (_max, start, end_).

Definition better_bottom_up_mscs (seq : list Z) : outcome (Z * nat * nat) :=
  try _max <- getitem seq 0 in
  try _sum <- getitem seq 0 in
  try final <-
    for_range (range 1 (length seq))
      (fun i '(_max, _sum, index, start, end_) =>
         try updated <-
           (if 0 <? _sum then
              try v <- getitem seq i in
              Return (_sum + v, index)
            else
              try v <- getitem seq i in
              Return (v, i)) in
         let '(_sum, index) := updated in
         if _max <? _sum then Return (_sum, _sum, index, index, i)
         else Return (_max, _sum, index, start, end_))
      (_max, _sum, 0%nat, 0%nat, 0%nat) in
  let '(_max, _, _, start, end_) := final in
  Return (_max, start, end_).

End MSCS.

(** ** An ascending policy *)

(** [h[i], h[j] = h[j], h[i]] *)
Definition swap_nodes (h : list BHNode) (i j : nat) : list BHNode :=
  match h !! i, h !! j with
  | Some a, Some b => <[j := a]> (<[i := b]> h)
  | _, _ => h
  end.

(** Modelled from the spec: the [pushUp] of a min-heap, which the engine
    leaves to the concrete class.  It restores the invariant "by repeatedly
    swapping the new node with its parent while the variant's ordering
    relation is violated, stopping at the root or when the relation holds";
    for a min-heap the relation is [key(p) <= key(i)], with the parent at
    [(i - 1) // 2].  The fuel bounds the number of swaps by the length of
    the list. *)
Fixpoint min_sift_up (fuel : nat) (c : Z) (h : list BHNode) : outcome unit * list BHNode :=
  match fuel with
  | O => (Return tt, h)
  | S fuel =>
      if c <=? 0 then (Return tt, h)
      else
        let p := (c - 1) / 2 in
        match h !! Z.to_nat p, h !! Z.to_nat c with
        | Some parent, Some node =>
            match BHNode.__le__ parent node with
            | Raise e => (Raise e, h)
            | Return true => (Return tt, h)
            | Return false => min_sift_up fuel p (swap_nodes h (Z.to_nat c) (Z.to_nat p))
            end
        | _, _ => (Raise (IndexError "i is not a valid index."), h)
        end
  end.

Definition min_push_up : hook := fun i h => min_sift_up (length h) i h.

(** The index among [m] and [c] whose node comes first; [m] when there is no
    node at [c]. *)
Definition min_pick (h : list BHNode) (m c : Z) : outcome Z :=
  match h !! Z.to_nat m, h !! Z.to_nat c with
  | Some a, Some b =>
      try ok <- BHNode.__le__ a b in
      Return (if ok then m else c)
  | _, _ => Return m
  end.

(** Modelled from the spec: the [pushDown] of a min-heap, "the classical
    heapify-down operation": the node at [i] is swapped with the smaller of
    its children at [2i + 1] and [2i + 2] while that child is smaller. *)
Fixpoint min_sift_down (fuel : nat) (i : Z) (h : list BHNode) : outcome unit * list BHNode :=
  match fuel with
  | O => (Return tt, h)
  | S fuel =>
      if (i <? 0) || (Z.of_nat (length h) <=? i) then
        (Raise (IndexError "i is not a valid index."), h)
      else
        match (try m <- min_pick h i (2 * i + 1) in min_pick h m (2 * i + 2)) with
        | Raise e => (Raise e, h)
        | Return m =>
            if m =? i then (Return tt, h)
            else min_sift_down fuel m (swap_nodes h (Z.to_nat i) (Z.to_nat m))
        end
  end.

Definition min_push_down : hook := fun i h => min_sift_down (length h) i h.

Definition min_heap : Variant :=
  {| _push_down := min_push_down; _push_up := min_push_up |}.

(** The empty store, and the keys of a heap in it. *)
Definition empty_state : pystate := mkState ∅ [].

Definition keys_of (st : pystate) (self : loc) : list pyobj :=
  map key (heap_of st self).

(** ** Sample data *)

(** [BHNode(n)] for an [int] *)
Definition int_node (n : Z) : BHNode := mkBHNode (PyInt n) (PyInt n).

(** A store with one heap, at location 1, holding the keys 5, 3 and 8. *)
Definition three_nodes : pystate :=
  mkState {[ 1%positive := [int_node 5; int_node 3; int_node 8] ]} [].

(** A store with the heaps built from [[1, 2]] and from [[0, 5]]. *)
Definition two_heaps : pystate :=
  mkState {[ 1%positive := [int_node 1; int_node 2];
             2%positive := [int_node 0; int_node 5] ]} [].




(** * Vocabulary of the statements *)

(** [idx] lists [top], [top - 1], ..., [0], each once and in that order. *)
Definition descending_from (top : Z) (idx : list Z) : Prop :=
  length idx = Z.to_nat (top + 1) /\
  forall k : nat, (k < length idx)%nat -> idx !! k = Some (top - Z.of_nat k).

(** The hook calls of one run of Floyd's construction over [n] nodes of the
    heap [self]: none for [n = 0], else one [_push_down] for each of
    [n // 2], ..., [0], in that order.  [before] and [after] are the call
    histories around the run. *)
Definition floyd_trace (self : loc) (n : Z) (before after : list call) : Prop :=
  if n =? 0 then after = before
  else exists idx, after = (before ++ map (PushDown self) idx)%list /\
                   descending_from (n / 2) idx.

(** What becomes of the list [h] when the hook [f] is invoked on it at each
    index of [idx] in turn, each call working on the list the call before it
    left; a call that raises ends the run, with its error and its list. *)
Fixpoint invoke_at_each (f : hook) (idx : list Z) (h : list BHNode)
    : outcome unit * list BHNode :=
  match idx with
  | [] => (Return tt, h)
  | i :: rest =>
      match f i h with
      | (Return _, h') => invoke_at_each f rest h'
      | (Raise e, h') => (Raise e, h')
      end
  end.

(** A hook that only swaps nodes leaves a permutation of the list it was
    given, also when it raises half-way. *)
Definition hook_permutes (f : hook) : Prop :=
  forall i h, (f i h).2 ≡ₚ h.

(** A hook that always returns. *)
Definition hook_returns (f : hook) : Prop :=
  forall i h, (f i h).1 = Return tt.

(** The node that the constructor makes of one element of its argument: a
    number is its own key and value, and a string, tuple or list of two items
    that are not [None] gives the key and the value. *)
Definition node_of_element (x : pyobj) (n : BHNode) : Prop :=
  (isinstance_int_float x = true /\ n = mkBHNode x x) \/
  (exists k v, items x = Some [k; v] /\ k <> PyNone /\ v <> PyNone /\ n = mkBHNode k v).




(** The sum of [seq[i]], ..., [seq[j]]. *)
Definition slice_sum (seq : list Z) (i j : nat) : Z :=
  foldr Z.add 0 (take (S j - i) (drop i seq)).

(** [(m, s, e)] names a slice of [seq] whose sum is [m]. *)
Definition is_slice_sum (seq : list Z) (r : Z * nat * nat) : Prop :=
  let '(m, s, e) := r in
  (s <= e < length seq)%nat /\ slice_sum seq s e = m.

(** [(m, s, e)] names a slice of [seq] whose sum [m] no slice exceeds. *)
Definition is_max_slice (seq : list Z) (r : Z * nat * nat) : Prop :=
  is_slice_sum seq r /\
  forall i j : nat, (i <= j < length seq)%nat -> slice_sum seq i j <= r.1.1.

(** * Properties *)

Local Open Scope list_scope.

(** ** Lists of indices *)

Lemma range_down_length (start stop : Z) :
  length (range_down start stop) = Z.to_nat (start - stop).
Proof. unfold range_down. by rewrite length_map, length_seq. Qed.

Lemma range_down_lookup (start stop : Z) (k : nat) :
  (k < Z.to_nat (start - stop))%nat ->
  range_down start stop !! k = Some (start - Z.of_nat k).
Proof.
  intros Hk. unfold range_down.
  by rewrite list_lookup_fmap, lookup_seq_lt.
Qed.

Lemma range_down_descending (top : Z) :
  descending_from top (range_down top (-1)).
Proof.
  split.
  - rewrite range_down_length. f_equal; lia.
  - intros k Hk. rewrite range_down_length in Hk. by apply range_down_lookup.
Qed.

(** There is one list of the indices [top], ..., [0] in that order. *)
Lemma descending_from_unique (top : Z) (idx : list Z) :
  descending_from top idx -> idx = range_down top (-1).
Proof.
  intros [Hlen Hidx]. destruct (range_down_descending top) as [Hlen' Hidx'].
  apply list_eq_same_length with (length idx); [congruence|done|].
  intros k x y Hk Hx Hy.
  rewrite (Hidx k Hk) in Hx. rewrite (Hidx' k) in Hy by congruence. congruence.
Qed.

(** ** Hooks that behave *)

Lemma abstract_push_down_permutes : hook_permutes abstract_push_down.
Proof. by intros i h. Qed.

Lemma abstract_push_up_permutes : hook_permutes abstract_push_up.
Proof. by intros i h. Qed.

(** ** The store under a sequence of hook calls *)

Lemma heap_of_insert_eq (m : gmap loc (list BHNode)) (c : list call) (self : loc) (h : list BHNode) :
  heap_of (mkState (<[self := h]> m) c) self = h.
Proof. unfold heap_of. simpl. by rewrite lookup_insert_eq. Qed.

Lemma heap_of_insert_ne (m : gmap loc (list BHNode)) (c : list call) (self l : loc) (h : list BHNode) :
  l <> self -> heap_of (mkState (<[self := h]> m) c) l = default [] (m !! l).
Proof. intros Hne. unfold heap_of. simpl. by rewrite lookup_insert_ne. Qed.

Lemma call_hook_unfold (f : hook) (ev : loc -> Z -> call) (self : loc) (i : Z) (st : pystate) :
  call_hook f ev self i st =
  ((f i (heap_of st self)).1,
   mkState (<[self := (f i (heap_of st self)).2]> (heaps st)) (calls st ++ [ev self i])).
Proof. unfold call_hook. by destruct (f i (heap_of st self)). Qed.

Lemma bind_unfold {A B} (m : M A) (k : A -> M B) (st : pystate) :
  bind m k st =
  match (m st).1 with
  | Return a => k a (m st).2
  | Raise e => (Raise e, (m st).2)
  end.
Proof. unfold bind. by destruct (m st) as [[a|e] st']. Qed.

Section HookLoop.

Variables (f : hook) (ev : loc -> Z -> call) (self : loc).

Lemma for_each_hook_cons (x : Z) (xs : list Z) (st : pystate) :
  for_each (x :: xs) (call_hook f ev self) st =
  match (f x (heap_of st self)).1 with
  | Return _ =>
      for_each xs (call_hook f ev self)
        (mkState (<[self := (f x (heap_of st self)).2]> (heaps st)) (calls st ++ [ev self x]))
  | Raise e =>
      (Raise e,
       mkState (<[self := (f x (heap_of st self)).2]> (heaps st)) (calls st ++ [ev self x]))
  end.
Proof. simpl. rewrite bind_unfold, call_hook_unfold. reflexivity. Qed.

Lemma for_each_hook_frame (xs : list Z) (st : pystate) (l : loc) :
  l <> self ->
  heaps (for_each xs (call_hook f ev self) st).2 !! l = heaps st !! l.
Proof.
  intros Hne. revert st. induction xs as [|x xs IH]; intros st; [done|].
  rewrite for_each_hook_cons.
  destruct (f x (heap_of st self)).1; [rewrite IH|]; simpl; by rewrite lookup_insert_ne.
Qed.

Lemma for_each_hook_perm (xs : list Z) (st : pystate) :
  hook_permutes f ->
  xs <> [] \/ is_Some (heaps st !! self) ->
  heaps (for_each xs (call_hook f ev self) st).2 !! self = Some (heap_of (for_each xs (call_hook f ev self) st).2 self) /\
  heap_of (for_each xs (call_hook f ev self) st).2 self ≡ₚ heap_of st self.
Proof.
  intros Hperm. revert st. induction xs as [|x xs IH]; intros st Hst.
  - destruct Hst as [|[h Hh]]; [done|]. simpl. unfold heap_of. by rewrite Hh.
  - rewrite for_each_hook_cons.
    destruct (f x (heap_of st self)).1.
    + destruct (IH (mkState (<[self := (f x (heap_of st self)).2]> (heaps st))
                           (calls st ++ [ev self x]))) as [H1 H2].
      { right. simpl. rewrite lookup_insert_eq. eauto. }
      split; [done|]. rewrite H2, heap_of_insert_eq. apply Hperm.
    + simpl. rewrite heap_of_insert_eq. simpl. rewrite lookup_insert_eq.
      split; [done|]. apply Hperm.
Qed.

Lemma for_each_hook_calls (xs : list Z) (st : pystate) :
  (for_each xs (call_hook f ev self) st).1 = Return tt ->
  calls (for_each xs (call_hook f ev self) st).2 = calls st ++ map (ev self) xs.
Proof.
  revert st. induction xs as [|x xs IH]; intros st.
  - simpl. by rewrite app_nil_r.
  - rewrite for_each_hook_cons.
    destruct (f x (heap_of st self)).1; [|done].
    intros Hret. rewrite IH by done. simpl. by rewrite <- app_assoc.
Qed.

(** Whatever happens, the calls made are an initial part of the planned ones. *)
Lemma for_each_hook_calls_prefix (xs : list Z) (st : pystate) :
  exists k : nat,
    calls (for_each xs (call_hook f ev self) st).2 = calls st ++ map (ev self) (take k xs).
Proof.
  revert st. induction xs as [|x xs IH]; intros st.
  - exists 0%nat. simpl. by rewrite app_nil_r.
  - rewrite for_each_hook_cons.
    destruct (f x (heap_of st self)).1.
    + destruct (IH (mkState (<[self := (f x (heap_of st self)).2]> (heaps st))
                           (calls st ++ [ev self x]))) as [k Hk].
      exists (S k). rewrite Hk. simpl. by rewrite <- app_assoc.
    + exists 1%nat. simpl. by destruct xs.
Qed.

(** The loop hands each index to the hook with the receiver's list as the
    call before it left it, and stops at the first call that raises. *)
Lemma for_each_hook_run (xs : list Z) (st : pystate) :
  invoke_at_each f xs (heap_of st self) =
  ((for_each xs (call_hook f ev self) st).1,
   heap_of (for_each xs (call_hook f ev self) st).2 self).
Proof.
  revert st. induction xs as [|x xs IH]; intros st; [done|].
  rewrite for_each_hook_cons. cbn [invoke_at_each].
  destruct (f x (heap_of st self)) as [[[]|e] h']; cbn [fst snd].
  - by rewrite <- IH, heap_of_insert_eq.
  - by rewrite heap_of_insert_eq.
Qed.

End HookLoop.

(** ** Floyd's construction *)

Section Engine.

Context {variant : Variant}.

Lemma build_heap_unfold (self : loc) (st : pystate) :
  BinaryHeap._build_heap self st =
  if bool_decide (heap_of st self <> [])
  then for_each (range_down (Z.of_nat (length (heap_of st self)) / 2) (-1))
                (call_hook _push_down PushDown self) st
  else (Return tt, st).
Proof.
  unfold BinaryHeap._build_heap. rewrite bind_unfold. simpl.
  by destruct (bool_decide (heap_of st self <> [])).
Qed.

Lemma build_heap_trace (self : loc) (st st' : pystate) :
  BinaryHeap._build_heap self st = (Return tt, st') ->
  floyd_trace self (Z.of_nat (length (heap_of st self))) (calls st) (calls st').
Proof.
  rewrite build_heap_unfold. unfold floyd_trace. intros Hrun.
  destruct (heap_of st self) as [|a h] eqn:Hh.
  - simpl in *. by inversion Hrun.
  - rewrite bool_decide_eq_true_2 in Hrun by done.
    replace (Z.of_nat (length (a :: h)) =? 0) with false
      by (symmetry; apply Z.eqb_neq; simpl; lia).
    eexists. split; [|apply range_down_descending].
    pose proof (for_each_hook_calls _push_down PushDown self
                  (range_down (Z.of_nat (length (a :: h)) / 2) (-1)) st) as Hc.
    rewrite Hrun in Hc. by apply Hc.
Qed.

Lemma build_heap_frame (self l : loc) (st : pystate) :
  l <> self ->
  heaps (BinaryHeap._build_heap self st).2 !! l = heaps st !! l.
Proof.
  intros Hne. rewrite build_heap_unfold.
  destruct (bool_decide (heap_of st self <> [])); [|done].
  by apply for_each_hook_frame.
Qed.

Lemma build_heap_perm (self : loc) (st : pystate) :
  hook_permutes _push_down ->
  heap_of (BinaryHeap._build_heap self st).2 self ≡ₚ heap_of st self.
Proof.
  intros Hperm. rewrite build_heap_unfold.
  destruct (heap_of st self) as [|a h] eqn:Hh.
  - simpl. by rewrite Hh.
  - rewrite bool_decide_eq_true_2 by done.
    rewrite <- Hh at 2.
    apply for_each_hook_perm; [done|]. left.
    intros Hnil. apply (f_equal length) in Hnil.
    rewrite range_down_length in Hnil. cbn [length] in Hnil.
    pose proof (Z.div_pos (Z.of_nat (S (length h))) 2). lia.
Qed.

(** On a list that is not empty the construction is [_push_down] invoked at
    each of [n // 2], ..., [0] in turn. *)
Lemma build_heap_run (self : loc) (st : pystate) (idx : list Z) :
  heap_of st self <> [] ->
  descending_from (Z.of_nat (length (heap_of st self)) / 2) idx ->
  invoke_at_each _push_down idx (heap_of st self) =
  ((BinaryHeap._build_heap self st).1, heap_of (BinaryHeap._build_heap self st).2 self).
Proof.
  intros Hh Hidx. apply descending_from_unique in Hidx as ->.
  rewrite build_heap_unfold, bool_decide_eq_true_2 by done.
  apply for_each_hook_run.
Qed.

Lemma build_heap_calls (self : loc) (st : pystate) (idx : list Z) :
  heap_of st self <> [] ->
  descending_from (Z.of_nat (length (heap_of st self)) / 2) idx ->
  ((BinaryHeap._build_heap self st).1 = Return tt ->
   calls (BinaryHeap._build_heap self st).2 = calls st ++ map (PushDown self) idx) /\
  exists k : nat,
    calls (BinaryHeap._build_heap self st).2 = calls st ++ map (PushDown self) (take k idx).
Proof.
  intros Hh Hidx. apply descending_from_unique in Hidx as ->.
  rewrite build_heap_unfold, bool_decide_eq_true_2 by done.
  split; [apply for_each_hook_calls|apply for_each_hook_calls_prefix].
Qed.

End Engine.

(** ** Construction, add and merge *)

Section Claims.

Context {variant : Variant}.

Lemma init_unfold (ls : option (list pyobj)) (st : pystate) :
  BinaryHeap.__init__ ls st =
  match BinaryHeap._create_list_of_heap_nodes (default [] ls) with
  | Raise e => (Raise e, st)
  | Return nodes =>
      let self := fresh (dom (heaps st)) in
      let st1 := mkState (<[self := nodes]> (heaps st)) (calls st) in
      match (BinaryHeap._build_heap self st1).1 with
      | Return _ => (Return self, (BinaryHeap._build_heap self st1).2)
      | Raise e => (Raise e, (BinaryHeap._build_heap self st1).2)
      end
  end.
Proof.
  unfold BinaryHeap.__init__. rewrite bind_unfold. unfold lift at 1 2. simpl.
  replace (match ls with Some ls0 => ls0 | None => [] end) with (default [] ls)
    by by destruct ls.
  destruct (BinaryHeap._create_list_of_heap_nodes (default [] ls)) as [nodes|e]; [|done].
  rewrite bind_unfold. unfold BinaryHeap.new_heap at 1 2. simpl.
  rewrite bind_unfold.
  by destruct (BinaryHeap._build_heap _ _).1.
Qed.

Lemma merge_unfold (self o : loc) (st : pystate) :
  BinaryHeap.merge self o st =
  BinaryHeap._build_heap self
    (mkState (<[self := heap_of st self ++ heap_of st o]> (heaps st)) (calls st)).
Proof. reflexivity. Qed.

(** C1. Floyd's construction makes no hook call on an empty list and leaves
    the store as it was.  On [n > 0] nodes it invokes [_push_down] on the
    receiver's list once for each of [n // 2], ..., [0], in that order, each
    call on the list that the call before it left: the outcome of the run
    and the list it leaves are those of that sequence of calls, no other heap
    is touched, the calls made are those of the sequence when the run
    returns, and the first ones of the sequence when a raising hook cuts it
    short.  The constructor ends with such a run over the nodes it created,
    and [merge] with one over the concatenated list. *)
Theorem build_heap_pushes_down_each_index (st : pystate) (self : loc) :
  let h := heap_of st self in
  let n := Z.of_nat (length h) in
  (n = 0 -> BinaryHeap._build_heap self st = (Return tt, st)) /\
  (0 < n -> forall idx, descending_from (n / 2) idx ->
     invoke_at_each _push_down idx h =
       ((BinaryHeap._build_heap self st).1,
        heap_of (BinaryHeap._build_heap self st).2 self) /\
     (forall l, l <> self ->
        heaps (BinaryHeap._build_heap self st).2 !! l = heaps st !! l) /\
     ((BinaryHeap._build_heap self st).1 = Return tt ->
      calls (BinaryHeap._build_heap self st).2 = calls st ++ map (PushDown self) idx) /\
     exists k : nat,
       calls (BinaryHeap._build_heap self st).2 =
       calls st ++ map (PushDown self) (take k idx)) /\
  (forall st', BinaryHeap._build_heap self st = (Return tt, st') ->
     floyd_trace self n (calls st) (calls st')) /\
  (forall ls new st', BinaryHeap.__init__ ls st = (Return new, st') ->
     exists nodes,
       BinaryHeap._create_list_of_heap_nodes (default [] ls) = Return nodes /\
       heaps st !! new = None /\
       floyd_trace new (Z.of_nat (length nodes)) (calls st) (calls st') /\
       (nodes = [] -> heap_of st' new = []) /\
       (nodes <> [] ->
        forall idx, descending_from (Z.of_nat (length nodes) / 2) idx ->
          invoke_at_each _push_down idx nodes = (Return tt, heap_of st' new))) /\
  (forall o st', BinaryHeap.merge self o st = (Return tt, st') ->
     floyd_trace self (n + Z.of_nat (length (heap_of st o))) (calls st) (calls st') /\
     (h ++ heap_of st o <> [] ->
      forall idx, descending_from ((n + Z.of_nat (length (heap_of st o))) / 2) idx ->
        invoke_at_each _push_down idx (h ++ heap_of st o) = (Return tt, heap_of st' self))).
Proof.
  intros h n. split; [|split; [|split; [|split]]].
  - intros Hn. rewrite build_heap_unfold. fold h.
    destruct h; [done|]. subst n. simpl in Hn. lia.
  - intros Hn idx Hidx.
    assert (h <> []) as Hh by (intros Hnil; subst n; rewrite Hnil in Hn; simpl in Hn; lia).
    split; [by apply build_heap_run|].
    split; [intros l Hl; by apply build_heap_frame|].
    by apply build_heap_calls.
  - apply build_heap_trace.
  - intros ls new st'. rewrite init_unfold.
    destruct (BinaryHeap._create_list_of_heap_nodes (default [] ls)) as [nodes|e]; [|done].
    cbv zeta.
    set (self' := fresh (dom (heaps st))).
    set (st1 := mkState (<[self' := nodes]> (heaps st)) (calls st)).
    destruct (BinaryHeap._build_heap self' st1) as [[[]|e] st2] eqn:Hb; simpl; [|done].
    intros [= <- <-]. exists nodes. split; [done|]. split; [|split; [|split]].
    + apply not_elem_of_dom. apply is_fresh.
    + apply build_heap_trace in Hb. subst st1.
      by rewrite heap_of_insert_eq in Hb.
    + intros ->. rewrite build_heap_unfold in Hb. subst st1.
      rewrite heap_of_insert_eq in Hb. cbn in Hb. injection Hb as <-.
      apply heap_of_insert_eq.
    + intros Hnodes idx Hidx.
      pose proof (build_heap_run self' st1 idx) as Hrun. subst st1.
      rewrite heap_of_insert_eq in Hrun. rewrite Hrun by done. by rewrite Hb.
  - intros o st'. rewrite merge_unfold. fold h. intros Hb. split.
    + apply build_heap_trace in Hb. rewrite heap_of_insert_eq in Hb. simpl in Hb.
      by rewrite length_app, Nat2Z.inj_add in Hb.
    + intros Hne idx Hidx.
      pose proof (build_heap_run self
                    (mkState (<[self := h ++ heap_of st o]> (heaps st)) (calls st)) idx)
        as Hrun.
      rewrite heap_of_insert_eq in Hrun. rewrite Hrun.
      * by rewrite Hb.
      * done.
      * by rewrite length_app, Nat2Z.inj_add.
Qed.

Lemma add_unfold (self : loc) (x : pyobj) (st : pystate) :
  BinaryHeap.add self x st =
  if is_none x then (Raise (ValueError "x cannot be None."), st)
  else
    match BinaryHeap.as_node x with
    | Raise e => (Raise e, st)
    | Return node =>
        let h := heap_of st self ++ [node] in
        let st1 := mkState (<[self := h]> (heaps st)) (calls st) in
        if 1 <? Z.of_nat (length h)
        then call_hook _push_up PushUp self (Z.of_nat (length h) - 1) st1
        else (Return tt, st1)
    end.
Proof.
  unfold BinaryHeap.add. destruct (is_none x); [done|].
  rewrite bind_unfold. unfold lift at 1 2. simpl.
  destruct (BinaryHeap.as_node x) as [node|e]; [|done].
  rewrite !bind_unfold. simpl. unfold BinaryHeap.size. rewrite !bind_unfold. simpl.
  rewrite ?heap_of_insert_eq. by destruct (1 <? _).
Qed.

Lemma size_unfold (self : loc) (st : pystate) :
  BinaryHeap.size self st = (Return (Z.of_nat (length (heap_of st self))), st).
Proof. reflexivity. Qed.

Lemma as_node_not_none (x : pyobj) :
  x <> PyNone ->
  BinaryHeap.as_node x =
  Return (match x with PyNode k v => mkBHNode k v | _ => mkBHNode x x end).
Proof. by destruct x. Qed.

(** C2. [add(None)] raises [ValueError] and changes nothing.  For any other
    [x], the node appended is [x] itself when [x] is a [BHNode] and
    [BHNode(x)] otherwise, and it goes to index [size()].  When the list now
    has more than one node, [_push_up] is invoked on the longer list at that
    index, once: the outcome of [add] and the list it leaves are the hook's.
    Otherwise no hook is called, [add] returns and the list is the node
    alone.  No other heap is touched; and, the hook only permuting the list,
    [size()] has grown by one. *)
Theorem add_appends_then_pushes_up (st : pystate) (self : loc) (x : pyobj) :
  let h := heap_of st self in
  (x = PyNone ->
     BinaryHeap.add self x st = (Raise (ValueError "x cannot be None."), st)) /\
  (x <> PyNone ->
     exists node,
       PyNode (key node) (value node) = (if isinstance_BHNode x then x else PyNode x x) /\
       (h ++ [node]) !! length h = Some node /\
       (if 1 <? Z.of_nat (length (h ++ [node]))
        then
          _push_up (Z.of_nat (length h)) (h ++ [node]) =
            ((BinaryHeap.add self x st).1, heap_of (BinaryHeap.add self x st).2 self) /\
          calls (BinaryHeap.add self x st).2 = calls st ++ [PushUp self (Z.of_nat (length h))]
        else
          (BinaryHeap.add self x st).1 = Return tt /\
          heap_of (BinaryHeap.add self x st).2 self = h ++ [node] /\
          calls (BinaryHeap.add self x st).2 = calls st) /\
       (forall l, l <> self -> heaps (BinaryHeap.add self x st).2 !! l = heaps st !! l) /\
       (hook_permutes _push_up ->
          (BinaryHeap.size self (BinaryHeap.add self x st).2).1
          = Return (Z.of_nat (length h) + 1))).
Proof.
  intros h. split.
  - intros ->. reflexivity.
  - intros Hx. rewrite add_unfold.
    replace (is_none x) with false by by destruct x.
    rewrite as_node_not_none by done.
    set (node := match x with PyNode k v => mkBHNode k v | _ => mkBHNode x x end).
    exists node. cbv zeta. fold h.
    replace (Z.of_nat (length (h ++ [node])) - 1) with (Z.of_nat (length h))
      by (rewrite length_app; simpl; lia).
    split; [by destruct x|].
    split; [by rewrite lookup_app_r, Nat.sub_diag by lia|].
    destruct (1 <? Z.of_nat (length (h ++ [node]))).
    + rewrite call_hook_unfold. cbn [fst snd calls heaps]. rewrite !heap_of_insert_eq.
      split; [split; [by destruct (_push_up _ _)|done]|].
      split; [intros l Hl; by rewrite !lookup_insert_ne|].
      intros Hperm. rewrite ?size_unfold. cbn [fst].
      rewrite !heap_of_insert_eq. f_equal.
      rewrite (Permutation_length (Hperm _ _)), length_app. simpl. lia.
    + cbn [fst snd calls heaps]. rewrite !heap_of_insert_eq.
      split; [done|].
      split; [intros l Hl; by rewrite lookup_insert_ne|].
      intros _. rewrite ?size_unfold. cbn [fst].
      rewrite heap_of_insert_eq. f_equal. rewrite length_app. simpl. lia.
Qed.

(** C3. [merge] writes the receiver's list followed by the donor's into the
    receiver and runs Floyd's construction over it: when the combined list
    has [n > 0] nodes, the outcome of [merge] and the list it leaves in the
    receiver are those of [_push_down] invoked on the combined list at each
    of [n // 2], ..., [0] in turn, and a [merge] that returns has made those
    calls; when both lists are empty it makes no call and leaves the receiver
    empty.  The hook only permuting the list, the receiver then holds exactly
    the nodes of both lists, and its [size()] is the sum of the two sizes. *)
Theorem merge_concatenates_then_builds (st : pystate) (self o : loc) :
  let hs := heap_of st self in
  let ho := heap_of st o in
  BinaryHeap.merge self o st =
    BinaryHeap._build_heap self (mkState (<[self := hs ++ ho]> (heaps st)) (calls st)) /\
  (hs ++ ho = [] ->
     BinaryHeap.merge self o st =
       (Return tt, mkState (<[self := []]> (heaps st)) (calls st))) /\
  (hs ++ ho <> [] ->
   forall idx, descending_from (Z.of_nat (length (hs ++ ho)) / 2) idx ->
     invoke_at_each _push_down idx (hs ++ ho) =
       ((BinaryHeap.merge self o st).1, heap_of (BinaryHeap.merge self o st).2 self) /\
     ((BinaryHeap.merge self o st).1 = Return tt ->
      calls (BinaryHeap.merge self o st).2 = calls st ++ map (PushDown self) idx)) /\
  (hook_permutes _push_down ->
     heap_of (BinaryHeap.merge self o st).2 self ≡ₚ hs ++ ho /\
     (BinaryHeap.size self (BinaryHeap.merge self o st).2).1
     = Return (Z.of_nat (length hs) + Z.of_nat (length ho))).
Proof.
  intros hs ho. split; [apply merge_unfold|]. split; [|split].
  - intros Hnil. rewrite merge_unfold, build_heap_unfold. fold hs ho.
    rewrite heap_of_insert_eq, Hnil. reflexivity.
  - intros Hne idx Hidx. rewrite merge_unfold. fold hs ho.
    set (st1 := mkState (<[self := hs ++ ho]> (heaps st)) (calls st)).
    assert (heap_of st1 self = hs ++ ho) as Hst1 by apply heap_of_insert_eq.
    rewrite <- Hst1 in Hne, Hidx. split.
    + rewrite <- Hst1. by apply build_heap_run.
    + by apply (build_heap_calls self st1 idx).
  - intros Hperm. rewrite merge_unfold. fold hs ho.
    pose proof (build_heap_perm self
                  (mkState (<[self := hs ++ ho]> (heaps st)) (calls st)) Hperm) as Hp.
    rewrite heap_of_insert_eq in Hp. split; [done|].
    rewrite size_unfold. cbn [fst]. f_equal.
    rewrite (Permutation_length Hp), length_app. lia.
Qed.

(** C9. [merge] into another heap leaves the donor's list as it was. *)
Theorem merge_leaves_donor_unchanged (st : pystate) (self o : loc) :
  self <> o ->
  heaps (BinaryHeap.merge self o st).2 !! o = heaps st !! o /\
  heap_of (BinaryHeap.merge self o st).2 o = heap_of st o.
Proof.
  intros Hne.
  assert (heaps (BinaryHeap.merge self o st).2 !! o = heaps st !! o) as Hl.
  { rewrite merge_unfold, build_heap_frame by done. simpl. by rewrite lookup_insert_ne. }
  split; [done|]. unfold heap_of. by rewrite Hl.
Qed.

End Claims.

(** C10. [search(None)] and [contains(None)] raise [ValueError], whatever the
    heap holds: neither looks for [None] in the list, and neither answers
    [-1] or [False]. *)
Theorem search_and_contains_reject_none (st : pystate) (self : loc) :
  BinaryHeap.search self PyNone st = (Raise (ValueError "x cannot be None."), st) /\
  BinaryHeap.contains self PyNone st = (Raise (ValueError "x cannot be None."), st).
Proof. split; reflexivity. Qed.

(** C8. The tree of an empty list is the sentence
    [Nothing to print: heap is empty.], with nothing before or after it. *)
Theorem pretty_empty_heap (math_log : Z -> Z -> Q) (builtin_str : pyobj -> outcome string)
    (inexact_column_width : Z -> Z -> outcome Z) (total_width : Z) (fill : ascii) :
  build_pretty_binary_heap math_log builtin_str inexact_column_width
    (PyList []) total_width fill
  = Return "Nothing to print: heap is empty."%string.
Proof. reflexivity. Qed.

(** C6. The two hooks of [BinaryHeap] itself have a lone [pass] for body:
    called on any index and any list they return [None] and leave the list
    alone, and so does a dispatch that ends in them. *)
Theorem abstract_hooks_return_none (i : Z) (h : list BHNode) :
  @_push_down abstract_base i h = (Return tt, h) /\
  @_push_up abstract_base i h = (Return tt, h) /\
  (forall st self,
     (call_hook (@_push_down abstract_base) PushDown self i st).1 = Return tt /\
     (call_hook (@_push_up abstract_base) PushUp self i st).1 = Return tt).
Proof. repeat split. Qed.

(** C6, as claimed, fails: at index [0] of an empty list neither hook of the
    abstract class raises anything. *)
Lemma abstract_hooks_do_not_raise :
  ~ raises (@_push_down abstract_base 0 []).1 /\
  ~ raises (@_push_up abstract_base 0 []).1.
Proof. split; intros [e He]; discriminate He. Qed.

(** ** Levels *)


(** ** The logarithm rounded to the nearest float *)










Section Levels.

Variable math_log2 : Z -> Q.

Lemma is_good_index_unfold (self : loc) (x : pyobj) (st : pystate) :
  BinaryHeap._is_good_index self x st =
  match int_value x with
  | None => (Raise (TypeError "indexes can only be int."), st)
  | Some i =>
      (Return (bool_decide (0 <= i < Z.of_nat (length (heap_of st self)))), st)
  end.
Proof.
  unfold BinaryHeap._is_good_index. destruct (int_value x) as [i|]; [|done].
  rewrite bind_unfold, size_unfold. cbn [fst snd]. unfold ret. do 2 f_equal.
  destruct (Z.ltb_spec i 0), (Z.geb_spec i (Z.of_nat (length (heap_of st self))));
    simpl; symmetry; (by apply bool_decide_eq_true_2; lia)
                     || (by apply bool_decide_eq_false_2; lia).
Qed.



End Levels.



(** ** Malformed input and failure *)

Lemma create_nodes_loop_app (pre rest : list pyobj) (acc : list BHNode) :
  BinaryHeap.create_nodes_loop (pre ++ rest) acc =
  try nodes <- BinaryHeap.create_nodes_loop pre acc in
  BinaryHeap.create_nodes_loop rest nodes.
Proof.
  revert acc. induction pre as [|x pre IH]; intros acc; [done|].
  cbn [app BinaryHeap.create_nodes_loop].
  destruct (isinstance_int_float x).
  - destruct (BHNode.__init__ x PyNone); [apply IH|done].
  - destruct (py_len x) as [len_x|]; [|done]. cbn [obind].
    destruct (negb (len_x =? 2)); [done|].
    destruct (py_getitem x 0) as [x0|]; [|done]. cbn [obind].
    destruct (py_getitem x 1) as [x1|]; [|done]. cbn [obind].
    destruct (is_none x0 || is_none x1); [done|].
    destruct (BHNode.__init__ x0 x1); [apply IH|done].
Qed.

Lemma items_not_number (x : pyobj) (xs : list pyobj) :
  items x = Some xs -> isinstance_int_float x = false.
Proof. by destruct x. Qed.

(** What the loop does when it reaches a sized element [x] after a prefix
    that it has turned into [nodes]. *)
Lemma create_at_element (pre post : list pyobj) (x : pyobj) (xs : list pyobj)
    (nodes : list BHNode) :
  BinaryHeap._create_list_of_heap_nodes pre = Return nodes ->
  items x = Some xs ->
  BinaryHeap._create_list_of_heap_nodes (pre ++ x :: post) =
  if negb (Z.of_nat (length xs) =? 2)
  then Raise (ValueError "x should be a tuple or list of 2 elements.")
  else
    try x0 <- py_getitem x 0 in
    try x1 <- py_getitem x 1 in
    if is_none x0 || is_none x1
    then Raise (ValueError "keys or values cannot be None.")
    else try n <- BHNode.__init__ x0 x1 in
         BinaryHeap.create_nodes_loop post (nodes ++ [n]).
Proof.
  intros Hpre Hx. unfold BinaryHeap._create_list_of_heap_nodes in *.
  rewrite create_nodes_loop_app, Hpre. cbn [obind BinaryHeap.create_nodes_loop].
  rewrite (items_not_number x xs Hx). unfold py_len. rewrite Hx. reflexivity.
Qed.

Section Failures.

Context {variant : Variant}.

(** C5, as the code has it.  Construction stops at the first element it cannot
    take.  When that element is a tuple, list or string whose length is not
    two, the error is a [ValueError] that says so; when it has two items of
    which one is [None], the error is again a [ValueError], with another
    message; the store is as before in both cases. *)
Theorem construction_fails_at_first_malformed_element
    (st : pystate) (pre post : list pyobj) (x : pyobj) (xs : list pyobj) (nodes : list BHNode) :
  BinaryHeap._create_list_of_heap_nodes pre = Return nodes ->
  items x = Some xs ->
  (length xs <> 2%nat ->
     BinaryHeap.__init__ (Some (pre ++ x :: post)) st
     = (Raise (ValueError "x should be a tuple or list of 2 elements."), st)) /\
  (forall k v, xs = [k; v] -> k = PyNone \/ v = PyNone ->
     BinaryHeap.__init__ (Some (pre ++ x :: post)) st
     = (Raise (ValueError "keys or values cannot be None."), st)) /\
  (forall e, (BinaryHeap.__init__ (Some (pre ++ x :: post)) st).1 = Raise e ->
     length xs <> 2%nat \/ (exists k v, xs = [k; v] /\ (k = PyNone \/ v = PyNone)) ->
     class_of e = CValueError).
Proof.
  intros Hpre Hx.
  pose proof (create_at_element pre post x xs nodes Hpre Hx) as Hcreate.
  assert (Hwrong : length xs <> 2%nat ->
    BinaryHeap._create_list_of_heap_nodes (pre ++ x :: post)
    = Raise (ValueError "x should be a tuple or list of 2 elements.")).
  { intros Hlen. rewrite Hcreate.
    destruct (Z.eqb_spec (Z.of_nat (length xs)) 2); [lia|done]. }
  assert (Habsent : forall k v, xs = [k; v] -> k = PyNone \/ v = PyNone ->
    BinaryHeap._create_list_of_heap_nodes (pre ++ x :: post)
    = Raise (ValueError "keys or values cannot be None.")).
  { intros k v -> Hnone. rewrite Hcreate. unfold py_getitem. rewrite Hx.
    cbn [length Z.of_nat Pos.of_succ_nat Pos.succ Z.eqb Pos.eqb negb lookup list_lookup obind].
    destruct Hnone as [-> | ->]; [done|]. cbn [is_none]. by rewrite orb_true_r. }
  split; [|split].
  - intros Hlen. rewrite init_unfold. change (default [] (Some (pre ++ x :: post))) with (pre ++ x :: post). by rewrite Hwrong.
  - intros k v Hxs Hnone. rewrite init_unfold. change (default [] (Some (pre ++ x :: post))) with (pre ++ x :: post).
    by rewrite (Habsent k v).
  - intros e. rewrite init_unfold. change (default [] (Some (pre ++ x :: post))) with (pre ++ x :: post).
    intros He [Hlen | (k & v & Hxs & Hnone)].
    + rewrite Hwrong in He by done. by inversion He.
    + rewrite (Habsent k v) in He by done. by inversion He.
Qed.

Lemma search_state (self : loc) (x : pyobj) (st : pystate) :
  (BinaryHeap.search self x st).2 = st.
Proof.
  unfold BinaryHeap.search. destruct (is_none x); [done|].
  rewrite bind_unfold. unfold lift at 1 2. cbn [fst snd].
  by destruct (BinaryHeap.as_node x).
Qed.

Lemma contains_state (self : loc) (x : pyobj) (st : pystate) :
  (BinaryHeap.contains self x st).2 = st.
Proof.
  unfold BinaryHeap.contains. rewrite bind_unfold.
  pose proof (search_state self x st) as Hs.
  by destruct (BinaryHeap.search self x st) as [[i|e] st'].
Qed.

(** C4, as the code has it.  An [add] that raises has either refused [None],
    and then the store is as it was, or it has appended the node and the
    error is the one [_push_up] raised on the longer list, which stays as the
    hook left it; with a hook that always returns only the first case
    remains.  [search] and [contains] never write to the store.  A
    constructor that raises while it reads its argument leaves the store as
    it was, and one that raises later has touched no heap that existed. *)
Theorem failure_before_or_inside_the_hook (st : pystate) (self : loc) (x : pyobj) :
  (forall e st', BinaryHeap.add self x st = (Raise e, st') ->
     (x = PyNone /\ st' = st) \/
     (x <> PyNone /\
      exists node,
        BinaryHeap.as_node x = Return node /\
        _push_up (Z.of_nat (length (heap_of st self))) (heap_of st self ++ [node])
        = (Raise e, heap_of st' self))) /\
  (hook_returns _push_up ->
     forall e st', BinaryHeap.add self x st = (Raise e, st') -> st' = st) /\
  (BinaryHeap.search self x st).2 = st /\
  (BinaryHeap.contains self x st).2 = st /\
  (forall ls e st', BinaryHeap.__init__ ls st = (Raise e, st') ->
     (BinaryHeap._create_list_of_heap_nodes (default [] ls) = Raise e -> st' = st) /\
     (forall l, is_Some (heaps st !! l) -> heaps st' !! l = heaps st !! l)).
Proof.
  assert (Hadd : forall e st', BinaryHeap.add self x st = (Raise e, st') ->
     (x = PyNone /\ st' = st) \/
     (x <> PyNone /\
      exists node,
        BinaryHeap.as_node x = Return node /\
        _push_up (Z.of_nat (length (heap_of st self))) (heap_of st self ++ [node])
        = (Raise e, heap_of st' self))).
  { intros e st'. rewrite add_unfold.
    destruct x; cbn [is_none BinaryHeap.as_node BHNode.__init__ negb];
      try (intros [= <- <-]; by left);
      cbv zeta; rewrite length_app; cbn [length];
      (destruct (1 <? _); [|done]);
      rewrite call_hook_unfold, heap_of_insert_eq;
      replace (Z.of_nat (length (heap_of st self) + 1) - 1)
        with (Z.of_nat (length (heap_of st self))) by lia;
      intros [= He <-]; right; (split; [done|]);
      eexists; (split; [reflexivity|]);
      rewrite heap_of_insert_eq; by apply injective_projections. }
  split; [exact Hadd|]. split; [|split; [apply search_state|split; [apply contains_state|]]].
  - intros Hret e st' Hrun. destruct (Hadd e st' Hrun) as [[_ ->]|(_ & node & _ & Hhook)]; [done|].
    pose proof (Hret (Z.of_nat (length (heap_of st self))) (heap_of st self ++ [node])) as Hr.
    rewrite Hhook in Hr. discriminate Hr.
  - intros ls e st'. rewrite init_unfold.
    destruct (BinaryHeap._create_list_of_heap_nodes (default [] ls)) as [nodes|e'].
    + cbv zeta.
      set (self' := fresh (dom (heaps st))).
      set (st1 := mkState (<[self' := nodes]> (heaps st)) (calls st)).
      destruct (BinaryHeap._build_heap self' st1).1 eqn:Hb; [done|].
      intros [= <- <-]. split; [done|].
      intros l Hl. rewrite build_heap_frame.
      * subst st1. simpl. rewrite lookup_insert_ne; [done|].
        intros <-. apply (is_fresh (dom (heaps st))). by apply elem_of_dom.
      * intros ->. apply (is_fresh (dom (heaps st))). by apply elem_of_dom.
    + intros [= <- <-]. split; [done|]. done.
Qed.

End Failures.

(** C5, as claimed, fails.  A one-item tuple and a pair with an absent key
    are refused with errors of one and the same class, and a list that holds
    both is refused for the one that comes first, here the absent key. *)
Lemma construction_errors_share_their_class :
  exists e1 e2,
    (BinaryHeap.__init__ (variant := min_heap)
       (Some [PyTuple [PyInt 1]]) empty_state).1 = Raise e1 /\
    (BinaryHeap.__init__ (variant := min_heap)
       (Some [PyTuple [PyNone; PyInt 1]]) empty_state).1 = Raise e2 /\
    class_of e1 = class_of e2 /\
    (BinaryHeap.__init__ (variant := min_heap)
       (Some [PyTuple [PyNone; PyInt 1]; PyTuple [PyInt 1]]) empty_state).1 = Raise e2 /\
    e1 <> e2.
Proof. do 2 eexists. repeat split; try reflexivity. discriminate. Qed.

(** C4, as claimed, fails.  On a min-heap that holds the key [1], [add("a")]
    raises the [TypeError] of the comparison made by [_push_up], and the
    heap has grown by the new node. *)
Lemma add_raises_after_appending :
  let st := (BinaryHeap.__init__ (variant := min_heap) (Some [PyInt 1]) empty_state).2 in
  exists e st',
    BinaryHeap.add (variant := min_heap) 1%positive (PyStr "a") st = (Raise e, st') /\
    keys_of st 1%positive = [PyInt 1] /\
    keys_of st' 1%positive = [PyInt 1; PyStr "a"] /\
    heap_of st' 1%positive <> heap_of st 1%positive.
Proof.
  do 2 eexists. split; [vm_compute; reflexivity|].
  split; [reflexivity|]. split; [reflexivity|]. discriminate.
Qed.

(** ** The ascending policy only swaps *)

Lemma insert_perm_delete {A} (l : list A) (i : nat) (x y : A) :
  l !! i = Some x -> <[i := y]> l ≡ₚ y :: delete i l.
Proof.
  revert i. induction l as [|a l IH]; intros [|i] Hi; try done.
  simpl in *. rewrite (IH i Hi). apply Permutation_swap.
Qed.

Lemma swap_nodes_perm (h : list BHNode) (i j : nat) :
  swap_nodes h i j ≡ₚ h.
Proof.
  unfold swap_nodes.
  destruct (h !! i) as [a|] eqn:Hi; [|done].
  destruct (h !! j) as [b|] eqn:Hj; [|done].
  destruct (decide (i = j)) as [->|Hne].
  - assert (a = b) as -> by congruence.
    by rewrite (list_insert_id h j b Hj), (list_insert_id h j b Hj).
  - assert (<[i := b]> h !! j = Some b) as Hj'
      by by rewrite list_lookup_insert_ne.
    rewrite (insert_perm_delete _ j b a Hj').
    pose proof (delete_Permutation _ _ _ Hj') as H1.
    rewrite (insert_perm_delete h i a b Hi) in H1 at 1.
    apply Permutation_cons_inv in H1. rewrite <- H1.
    symmetry. by apply delete_Permutation.
Qed.

Lemma min_push_up_permutes : hook_permutes min_push_up.
Proof.
  intros i h. unfold min_push_up. generalize (length h) as fuel.
  intros fuel. revert i h. induction fuel as [|fuel IH]; intros i h; [done|].
  cbn [min_sift_up]. destruct (i <=? 0); [done|].
  destruct (h !! Z.to_nat ((i - 1) `div` 2)) as [parent|]; [|done].
  destruct (h !! Z.to_nat i) as [node|]; [|done].
  destruct (BHNode.__le__ parent node) as [[]|]; try done.
  rewrite IH. apply swap_nodes_perm.
Qed.

Lemma min_push_down_permutes : hook_permutes min_push_down.
Proof.
  intros i h. unfold min_push_down. generalize (length h) as fuel.
  intros fuel. revert i h. induction fuel as [|fuel IH]; intros i h; [done|].
  cbn [min_sift_down]. destruct ((i <? 0) || (Z.of_nat (length h) <=? i)); [done|].
  destruct (try m <- min_pick h i (2 * i + 1) in min_pick h m (2 * i + 2)) as [m|]; [|done].
  destruct (m =? i); [done|].
  rewrite IH. apply swap_nodes_perm.
Qed.

(** ** Scenarios on a min-heap *)

Example build_from_five_keys :
  let st := (BinaryHeap.__init__ (variant := min_heap)
               (Some [PyInt 5; PyInt 3; PyInt 8; PyInt 1; PyInt 4]) empty_state).2 in
  keys_of st 1%positive = [PyInt 1; PyInt 3; PyInt 8; PyInt 5; PyInt 4] /\
  calls st = [PushDown 1%positive 2; PushDown 1%positive 1; PushDown 1%positive 0].
Proof. split; reflexivity. Qed.

Example add_a_smaller_key :
  let st := (BinaryHeap.__init__ (variant := min_heap)
               (Some [PyInt 5; PyInt 3; PyInt 8; PyInt 1; PyInt 4]) empty_state).2 in
  let st' := (BinaryHeap.add (variant := min_heap) 1%positive (PyInt 0) st).2 in
  keys_of st' 1%positive = [PyInt 0; PyInt 3; PyInt 1; PyInt 5; PyInt 4; PyInt 8] /\
  (BinaryHeap.size 1%positive st').1 = Return 6 /\
  (BinaryHeap.search 1%positive (PyInt 0) st').1 = Return 0 /\
  (BinaryHeap.contains 1%positive (PyInt 7) st').1 = Return false.
Proof. repeat split; reflexivity. Qed.

Example merge_two_heaps :
  let st := (BinaryHeap.merge (variant := min_heap) 1%positive 2%positive two_heaps).2 in
  keys_of st 1%positive = [PyInt 0; PyInt 2; PyInt 1; PyInt 5] /\
  keys_of st 2%positive = [PyInt 0; PyInt 5] /\
  calls st = [PushDown 1%positive 2; PushDown 1%positive 1; PushDown 1%positive 0].
Proof. repeat split; reflexivity. Qed.

Example merge_with_itself :
  keys_of (BinaryHeap.merge (variant := min_heap) 1%positive 1%positive two_heaps).2 1%positive
  = [PyInt 1; PyInt 2; PyInt 1; PyInt 2].
Proof. reflexivity. Qed.

Example a_string_of_two_characters_is_a_pair :
  heap_of (BinaryHeap.__init__ (variant := min_heap) (Some [PyStr "ab"]) empty_state).2 1%positive
  = [mkBHNode (PyStr "a") (PyStr "b")].
Proof. reflexivity. Qed.

(** ** The statements at work on sample heaps *)

Lemma descending_1_0 : descending_from 1 [1; 0].
Proof. exact (range_down_descending 1). Qed.

Lemma descending_2_1_0 : descending_from 2 [2; 1; 0].
Proof. exact (range_down_descending 2). Qed.

Lemma build_heap_pushes_down_each_index_witness :
  BinaryHeap._build_heap (variant := min_heap) 2%positive three_nodes
    = (Return tt, three_nodes) /\
  (BinaryHeap._build_heap (variant := min_heap) 1%positive three_nodes).1 = Return tt /\
  heap_of (BinaryHeap._build_heap (variant := min_heap) 1%positive three_nodes).2 1%positive
    = [int_node 3; int_node 5; int_node 8] /\
  calls (BinaryHeap._build_heap (variant := min_heap) 1%positive three_nodes).2
    = [PushDown 1%positive 1; PushDown 1%positive 0] /\
  floyd_trace 1%positive 4 []
    (calls (BinaryHeap.merge (variant := min_heap) 1%positive 2%positive two_heaps).2).
Proof.
  destruct (build_heap_pushes_down_each_index (variant := min_heap) three_nodes 2%positive)
    as (Hempty & _).
  destruct (build_heap_pushes_down_each_index (variant := min_heap) three_nodes 1%positive)
    as (_ & Hbuild & _).
  destruct (build_heap_pushes_down_each_index (variant := min_heap) two_heaps 1%positive)
    as (_ & _ & _ & _ & Hmerge).
  destruct (Hbuild eq_refl [1; 0] descending_1_0) as (Hrun & _ & Hcalls & _).
  pose proof (f_equal fst Hrun) as Hout. pose proof (f_equal snd Hrun) as Hlist.
  cbn [fst snd] in Hout, Hlist.
  split; [|split; [|split; [|split]]].
  - apply Hempty. reflexivity.
  - rewrite <- Hout. reflexivity.
  - rewrite <- Hlist. reflexivity.
  - rewrite Hcalls; [reflexivity|]. rewrite <- Hout. reflexivity.
  - apply (Hmerge 2%positive
             (BinaryHeap.merge (variant := min_heap) 1%positive 2%positive two_heaps).2).
    vm_compute. reflexivity.
Defined.

Lemma add_appends_then_pushes_up_witness :
  BinaryHeap.add (variant := min_heap) 1%positive PyNone three_nodes
    = (Raise (ValueError "x cannot be None."), three_nodes) /\
  (BinaryHeap.add (variant := min_heap) 1%positive (PyInt 0) three_nodes).1 = Return tt /\
  heap_of (BinaryHeap.add (variant := min_heap) 1%positive (PyInt 0) three_nodes).2 1%positive
    = [int_node 0; int_node 5; int_node 8; int_node 3] /\
  (BinaryHeap.size 1%positive
     (BinaryHeap.add (variant := min_heap) 1%positive (PyInt 0) three_nodes).2).1
    = Return 4.
Proof.
  split.
  - apply (add_appends_then_pushes_up (variant := min_heap) three_nodes 1%positive PyNone).
    reflexivity.
  - destruct (add_appends_then_pushes_up (variant := min_heap) three_nodes 1%positive (PyInt 0))
      as (_ & Hadd).
    destruct (Hadd ltac:(discriminate)) as (node & Hnode & _ & Hhook & _ & Hsize).
    assert (node = int_node 0) as -> by (destruct node; by injection Hnode as -> ->).
    destruct Hhook as [Hhook _].
    pose proof (f_equal fst Hhook) as Hout. pose proof (f_equal snd Hhook) as Hlist.
  cbn [fst snd] in Hout, Hlist.
    split; [rewrite <- Hout; reflexivity|].
    split; [rewrite <- Hlist; reflexivity|].
    exact (Hsize min_push_up_permutes).
Defined.

Lemma merge_concatenates_then_builds_witness :
  (BinaryHeap.merge (variant := min_heap) 1%positive 2%positive two_heaps).1 = Return tt /\
  heap_of (BinaryHeap.merge (variant := min_heap) 1%positive 2%positive two_heaps).2 1%positive
    = [int_node 0; int_node 2; int_node 1; int_node 5] /\
  calls (BinaryHeap.merge (variant := min_heap) 1%positive 2%positive two_heaps).2
    = [PushDown 1%positive 2; PushDown 1%positive 1; PushDown 1%positive 0] /\
  (BinaryHeap.size 1%positive
     (BinaryHeap.merge (variant := min_heap) 1%positive 2%positive two_heaps).2).1
    = Return 4.
Proof.
  destruct (merge_concatenates_then_builds (variant := min_heap) two_heaps 1%positive 2%positive)
    as (_ & _ & Hbuild & Hperm).
  destruct (Hbuild ltac:(discriminate) [2; 1; 0] descending_2_1_0) as (Hrun & Hcalls).
  pose proof (f_equal fst Hrun) as Hout. pose proof (f_equal snd Hrun) as Hlist.
  cbn [fst snd] in Hout, Hlist.
  split; [rewrite <- Hout; reflexivity|].
  split; [rewrite <- Hlist; reflexivity|].
  split; [rewrite Hcalls; [reflexivity|]; rewrite <- Hout; reflexivity|].
  exact (proj2 (Hperm min_push_down_permutes)).
Defined.

Lemma merge_leaves_donor_unchanged_witness :
  heap_of (BinaryHeap.merge (variant := min_heap) 1%positive 2%positive two_heaps).2 2%positive
    = [int_node 0; int_node 5].
Proof.
  destruct (merge_leaves_donor_unchanged (variant := min_heap) two_heaps 1%positive 2%positive)
    as (_ & Hdonor); [discriminate|].
  exact Hdonor.
Defined.


Lemma construction_fails_at_first_malformed_element_witness :
  BinaryHeap.__init__ (variant := min_heap)
    (Some ([PyInt 7] ++ PyTuple [PyInt 1] :: [PyInt 2])) empty_state
    = (Raise (ValueError "x should be a tuple or list of 2 elements."), empty_state) /\
  BinaryHeap.__init__ (variant := min_heap)
    (Some ([PyInt 7] ++ PyList [PyInt 1; PyNone] :: [PyInt 2])) empty_state
    = (Raise (ValueError "keys or values cannot be None."), empty_state).
Proof.
  split.
  - destruct (construction_fails_at_first_malformed_element (variant := min_heap)
                empty_state [PyInt 7] [PyInt 2] (PyTuple [PyInt 1]) [PyInt 1] [int_node 7]
                eq_refl eq_refl) as (Harity & _).
    apply Harity. simpl. lia.
  - destruct (construction_fails_at_first_malformed_element (variant := min_heap)
                empty_state [PyInt 7] [PyInt 2] (PyList [PyInt 1; PyNone]) [PyInt 1; PyNone]
                [int_node 7] eq_refl eq_refl) as (_ & Habsent & _).
    apply (Habsent (PyInt 1) PyNone eq_refl). by right.
Defined.

Lemma failure_before_or_inside_the_hook_witness :
  (forall e st',
     BinaryHeap.add (variant := abstract_base) 1%positive PyNone three_nodes = (Raise e, st') ->
     st' = three_nodes) /\
  exists node,
    BinaryHeap.as_node (PyStr "a") = Return node /\
    @_push_up min_heap (Z.of_nat (length (heap_of three_nodes 1%positive)))
      (heap_of three_nodes 1%positive ++ [node])
    = (Raise (TypeError "'<=' not supported between instances of 'int' and 'str'"),
       heap_of (BinaryHeap.add (variant := min_heap) 1%positive (PyStr "a") three_nodes).2
         1%positive).
Proof.
  split.
  - destruct (failure_before_or_inside_the_hook (variant := abstract_base)
                three_nodes 1%positive PyNone) as (_ & Hreturns & _).
    apply Hreturns. intros i h. reflexivity.
  - destruct (failure_before_or_inside_the_hook (variant := min_heap)
                three_nodes 1%positive (PyStr "a")) as (Hadd & _).
    destruct (Hadd (TypeError "'<=' not supported between instances of 'int' and 'str'")
                (BinaryHeap.add (variant := min_heap) 1%positive (PyStr "a") three_nodes).2)
      as [[Hnone _]|(_ & node & Hnode & Hhook)].
    + vm_compute. reflexivity.
    + discriminate Hnone.
    + exists node. split; [exact Hnode|exact Hhook].
Defined.

(** * Further properties of the engine *)

(** ** Index arithmetic in closed form *)

Section IndexArithmetic.

Variables (self : loc) (st : pystate).

Let n : Z := Z.of_nat (length (heap_of st self)).

Lemma good_index_int (x : pyobj) (i : Z) :
  int_value x = Some i ->
  BinaryHeap._is_good_index self x st = (Return (bool_decide (0 <= i < n)), st).
Proof. intros Hx. by rewrite is_good_index_unfold, Hx. Qed.

Lemma good_index_other (x : pyobj) :
  int_value x = None ->
  BinaryHeap._is_good_index self x st = (Raise (TypeError "indexes can only be int."), st).
Proof. intros Hx. by rewrite is_good_index_unfold, Hx. Qed.

Lemma index_value_int (x : pyobj) (i : Z) :
  int_value x = Some i -> BinaryHeap.index_value x = i.
Proof. intros Hx. unfold BinaryHeap.index_value. by rewrite Hx. Qed.

Lemma parent_index_int (x : pyobj) (i : Z) :
  int_value x = Some i ->
  BinaryHeap._parent_index self x st =
  if bool_decide (0 <= i < n)
  then (Return (if i =? 0 then -1 else (i - 1) / 2), st)
  else (Raise (IndexError "i is not a valid index."), st).
Proof.
  intros Hx. unfold BinaryHeap._parent_index.
  rewrite bind_unfold, (good_index_int x i Hx). cbn [fst snd].
  rewrite (index_value_int x i Hx).
  by destruct (bool_decide (0 <= i < n)).
Qed.

Lemma left_index_int (x : pyobj) (i : Z) :
  int_value x = Some i ->
  BinaryHeap._left_index self x st =
  if bool_decide (0 <= i < n)
  then (Return (if bool_decide (2 * i + 1 < n) then 2 * i + 1 else -1), st)
  else (Raise (IndexError "i is not a valid index."), st).
Proof.
  intros Hx. unfold BinaryHeap._left_index.
  rewrite bind_unfold, (good_index_int x i Hx). cbn [fst snd].
  rewrite (index_value_int x i Hx).
  destruct (bool_decide (0 <= i < n)) eqn:Hi; [|done]. cbn [negb].
  apply bool_decide_eq_true in Hi.
  rewrite bind_unfold, (good_index_int (PyInt (i * 2 + 1)) (i * 2 + 1) eq_refl).
  cbn [fst snd]. unfold ret. do 2 f_equal.
  replace (i * 2 + 1) with (2 * i + 1) by lia.
  destruct (bool_decide (2 * i + 1 < n)) eqn:Hl.
  - apply bool_decide_eq_true in Hl. rewrite bool_decide_eq_true_2 by lia. done.
  - apply bool_decide_eq_false in Hl. rewrite bool_decide_eq_false_2 by lia. done.
Qed.

Lemma right_index_int (x : pyobj) (i : Z) :
  int_value x = Some i ->
  BinaryHeap._right_index self x st =
  if bool_decide (0 <= i < n)
  then (Return (if bool_decide (2 * i + 2 < n) then 2 * i + 2 else -1), st)
  else (Raise (IndexError "i is not a valid index."), st).
Proof.
  intros Hx. unfold BinaryHeap._right_index.
  rewrite bind_unfold, (good_index_int x i Hx). cbn [fst snd].
  rewrite (index_value_int x i Hx).
  destruct (bool_decide (0 <= i < n)) eqn:Hi; [|done]. cbn [negb].
  apply bool_decide_eq_true in Hi.
  rewrite bind_unfold, (good_index_int (PyInt (i * 2 + 2)) (i * 2 + 2) eq_refl).
  cbn [fst snd]. unfold ret. do 2 f_equal.
  replace (i * 2 + 2) with (2 * i + 2) by lia.
  destruct (bool_decide (2 * i + 2 < n)) eqn:Hl.
  - apply bool_decide_eq_true in Hl. rewrite bool_decide_eq_true_2 by lia. done.
  - apply bool_decide_eq_false in Hl. rewrite bool_decide_eq_false_2 by lia. done.
Qed.

End IndexArithmetic.

Ltac Zify.zify_post_hook ::= Z.to_euclidean_division_equations.

Section IndexRelations.

Variables (self : loc) (st : pystate).

Let n : Z := Z.of_nat (length (heap_of st self)).

Lemma grandparent_index_int (x : pyobj) (i : Z) :
  int_value x = Some i ->
  BinaryHeap._grandparent_index self x st =
  if bool_decide (0 <= i < n)
  then (Return (if i <? 3 then -1 else ((i - 1) / 2 - 1) / 2), st)
  else (Raise (IndexError "i is not a valid index."), st).
Proof.
  intros Hx. unfold BinaryHeap._grandparent_index.
  rewrite bind_unfold, (parent_index_int self st x i Hx). fold n.
  case_bool_decide as Hi; [|done]. cbn [fst snd].
  destruct (Z.eqb_spec i 0) as [->|Hi0]; [done|].
  destruct (Z.eqb_spec ((i - 1) / 2) (-1)) as [Hp|Hp]; [lia|].
  rewrite (parent_index_int self st (PyInt ((i - 1) / 2)) _ eq_refl). fold n.
  rewrite bool_decide_eq_true_2 by lia.
  destruct (Z.eqb_spec ((i - 1) / 2) 0), (Z.ltb_spec i 3); try lia; done.
Qed.

Lemma has_children_int (x : pyobj) (i : Z) :
  int_value x = Some i ->
  BinaryHeap._has_children self x st =
  if bool_decide (0 <= i < n)
  then (Return (bool_decide (2 * i + 1 < n)), st)
  else (Raise (IndexError "i is not a valid index."), st).
Proof.
  intros Hx. unfold BinaryHeap._has_children.
  rewrite bind_unfold, (good_index_int self st x i Hx). fold n. cbn [fst snd].
  case_bool_decide as Hi; [|done]. cbn [negb].
  rewrite bind_unfold, (left_index_int self st x i Hx). fold n.
  rewrite bool_decide_eq_true_2 by done. cbn [fst snd].
  case_bool_decide as Hl.
  - by destruct (Z.eqb_spec (2 * i + 1) (-1)); [lia|].
  - rewrite ?Z.eqb_refl; cbn [negb]. rewrite bind_unfold, (right_index_int self st x i Hx). fold n.
    rewrite bool_decide_eq_true_2 by done. cbn [fst snd].
    by rewrite bool_decide_eq_false_2 by lia.
Qed.

Lemma is_child_int (xc xi : pyobj) (c i : Z) :
  int_value xc = Some c -> int_value xi = Some i ->
  BinaryHeap._is_child self xc xi st =
  if bool_decide (0 <= c < n) && bool_decide (0 <= i < n)
  then (Return (bool_decide (c = 2 * i + 1 \/ c = 2 * i + 2)), st)
  else (Raise (IndexError "i or c are not valid indexes."), st).
Proof.
  intros Hc Hi. unfold BinaryHeap._is_child.
  rewrite bind_unfold, (good_index_int self st xc c Hc). fold n. cbn [fst snd].
  case_bool_decide as Hcv; cbn [negb andb]; [|by rewrite bind_unfold].
  rewrite bind_unfold, (good_index_int self st xi i Hi). fold n. cbn [fst snd].
  case_bool_decide as Hiv; cbn [negb orb]; [|done].
  rewrite bind_unfold, (left_index_int self st xi i Hi). fold n.
  rewrite bool_decide_eq_true_2 by done. cbn [fst snd].
  rewrite (index_value_int xc c Hc).
  destruct (Z.eqb_spec c (if bool_decide (2 * i + 1 < n) then 2 * i + 1 else -1)) as [Hl|Hl].
  - unfold ret. do 2 f_equal. symmetry. apply bool_decide_eq_true_2.
    case_bool_decide; lia.
  - rewrite bind_unfold, (right_index_int self st xi i Hi). fold n.
    rewrite bool_decide_eq_true_2 by done. cbn [fst snd]. unfold ret. do 2 f_equal.
    repeat case_bool_decide; destruct (Z.eqb_spec c (2 * i + 2));
      destruct (Z.eqb_spec c (-1)); try lia; done.
Qed.

Lemma is_parent_int (xp xi : pyobj) (p i : Z) :
  int_value xp = Some p -> int_value xi = Some i ->
  BinaryHeap._is_parent self xp xi st =
  if bool_decide (0 <= p < n)
  then if bool_decide (0 <= i < n)
       then (Return (bool_decide (i = 2 * p + 1 \/ i = 2 * p + 2)), st)
       else (Raise (IndexError "i is not a valid index."), st)
  else (Raise (IndexError "p is not a valid index."), st).
Proof.
  intros Hp Hi. unfold BinaryHeap._is_parent.
  rewrite bind_unfold, (good_index_int self st xp p Hp). fold n. cbn [fst snd].
  case_bool_decide as Hpv; cbn [negb]; [|done].
  rewrite bind_unfold, (parent_index_int self st xi i Hi). fold n.
  case_bool_decide as Hiv; [|done]. cbn [fst snd].
  rewrite (index_value_int xp p Hp). unfold ret. do 2 f_equal.
  destruct (Z.eqb_spec i 0); case_bool_decide;
    destruct (Z.eqb_spec (-1) p); destruct (Z.eqb_spec ((i - 1) / 2) p); try lia; done.
Qed.

Lemma is_grandchild_int (xg xi : pyobj) (g i : Z) :
  int_value xg = Some g -> int_value xi = Some i ->
  BinaryHeap._is_grandchild self xg xi st =
  if bool_decide (0 <= i < n)
  then if bool_decide (0 <= g < n)
       then (Return (bool_decide (4 * i + 3 <= g <= 4 * i + 6)), st)
       else (Raise (IndexError (if bool_decide (2 * i + 1 < n)
                                then "i or c are not valid indexes."
                                else "g is not a valid index.")), st)
  else (Raise (IndexError "i is not a valid index."), st).
Proof.
  intros Hg Hi. unfold BinaryHeap._is_grandchild.
  rewrite bind_unfold, (left_index_int self st xi i Hi). fold n.
  case_bool_decide as Hiv; [|done]. cbn [fst snd].
  case_bool_decide as Hl.
  - destruct (Z.eqb_spec (2 * i + 1) (-1)); [lia|].
    rewrite bind_unfold, (right_index_int self st xi i Hi). fold n.
    rewrite bool_decide_eq_true_2 by done. cbn [fst snd].
    case_bool_decide as Hr.
    + destruct (Z.eqb_spec (2 * i + 2) (-1)); [lia|].
      rewrite bind_unfold, (is_child_int xg (PyInt (2 * i + 1)) g _ Hg eq_refl). fold n.
      case_bool_decide as Hgv; cbn [andb]; [|done].
      rewrite bool_decide_eq_true_2 by lia. cbn [fst snd].
      case_bool_decide as Hcl.
      * unfold ret. do 2 f_equal. symmetry. apply bool_decide_eq_true_2. lia.
      * rewrite (is_child_int xg (PyInt (2 * i + 2)) g _ Hg eq_refl). fold n.
        rewrite !bool_decide_eq_true_2 by lia. cbn [andb]. do 2 f_equal.
        repeat case_bool_decide; try lia; done.
    + rewrite Z.eqb_refl.
      rewrite (is_child_int xg (PyInt (2 * i + 1)) g _ Hg eq_refl). fold n.
      case_bool_decide as Hgv; cbn [andb]; [|done].
      rewrite bool_decide_eq_true_2 by lia. do 2 f_equal.
      repeat case_bool_decide; try lia; done.
  - rewrite Z.eqb_refl.
    rewrite bind_unfold, (right_index_int self st xi i Hi). fold n.
    rewrite bool_decide_eq_true_2 by done. cbn [fst snd].
    rewrite bool_decide_eq_false_2 by lia. rewrite ?Z.eqb_refl; cbn [negb].
    rewrite bind_unfold, (good_index_int self st xg g Hg). fold n. cbn [fst snd].
    case_bool_decide as Hgv; cbn [negb]; [|done].
    unfold ret. do 2 f_equal. symmetry. apply bool_decide_eq_false_2. lia.
Qed.

Lemma is_grandparent_int (xg xi : pyobj) (g i : Z) :
  int_value xg = Some g -> int_value xi = Some i ->
  BinaryHeap._is_grandparent self xg xi st =
  if bool_decide (0 <= g < n)
  then if bool_decide (0 <= i < n)
       then (Return (bool_decide (4 * g + 3 <= i <= 4 * g + 6)), st)
       else (Raise (IndexError "i is not a valid index."), st)
  else (Raise (IndexError "g is not a valid index."), st).
Proof.
  intros Hg Hi. unfold BinaryHeap._is_grandparent.
  rewrite bind_unfold, (good_index_int self st xg g Hg). fold n. cbn [fst snd].
  case_bool_decide as Hgv; cbn [negb]; [|done].
  rewrite bind_unfold, (parent_index_int self st xi i Hi). fold n.
  case_bool_decide as Hiv; [|done]. cbn [fst snd].
  destruct (Z.eqb_spec i 0) as [->|Hi0].
  - change (-1 =? -1) with true. unfold ret. do 2 f_equal. symmetry. apply bool_decide_eq_false_2. lia.
  - destruct (Z.eqb_spec ((i - 1) / 2) (-1)); [lia|].
    rewrite (is_parent_int xg (PyInt ((i - 1) / 2)) g _ Hg eq_refl). fold n.
    rewrite !bool_decide_eq_true_2 by lia. do 2 f_equal.
    repeat case_bool_decide; try lia; done.
Qed.

End IndexRelations.

(** ** Parents, children and grandchildren *)

(** X1. In a heap of [n] nodes, a child that [_left_index] or [_right_index]
    reports for a valid index [i] has [i] for parent, and every valid index
    but the root is the left or the right child of the parent that
    [_parent_index] reports, which lies before it; the root has parent [-1].
    Nothing is written to the store. *)
Theorem child_and_parent_round_trip (st : pystate) (self : loc) (i : Z) :
  0 <= i < Z.of_nat (length (heap_of st self)) ->
  (forall c, BinaryHeap._left_index self (PyInt i) st = (Return c, st) -> c <> -1 ->
     c = 2 * i + 1 /\ BinaryHeap._parent_index self (PyInt c) st = (Return i, st)) /\
  (forall c, BinaryHeap._right_index self (PyInt i) st = (Return c, st) -> c <> -1 ->
     c = 2 * i + 2 /\ BinaryHeap._parent_index self (PyInt c) st = (Return i, st)) /\
  (i = 0 -> BinaryHeap._parent_index self (PyInt i) st = (Return (-1), st)) /\
  (0 < i ->
     exists p, BinaryHeap._parent_index self (PyInt i) st = (Return p, st) /\
               0 <= p < i /\
               (BinaryHeap._left_index self (PyInt p) st = (Return i, st) \/
                BinaryHeap._right_index self (PyInt p) st = (Return i, st))).
Proof.
  intros Hi. split; [|split; [|split]].
  - intros c. rewrite (left_index_int self st (PyInt i) i eq_refl).
    rewrite bool_decide_eq_true_2 by done.
    case_bool_decide; intros [= <-] Hne; [|lia]. split; [done|].
    rewrite (parent_index_int self st (PyInt (2 * i + 1)) _ eq_refl).
    rewrite bool_decide_eq_true_2 by lia.
    destruct (Z.eqb_spec (2 * i + 1) 0); [lia|]. do 2 f_equal. lia.
  - intros c. rewrite (right_index_int self st (PyInt i) i eq_refl).
    rewrite bool_decide_eq_true_2 by done.
    case_bool_decide; intros [= <-] Hne; [|lia]. split; [done|].
    rewrite (parent_index_int self st (PyInt (2 * i + 2)) _ eq_refl).
    rewrite bool_decide_eq_true_2 by lia.
    destruct (Z.eqb_spec (2 * i + 2) 0); [lia|]. do 2 f_equal. lia.
  - intros ->. rewrite (parent_index_int self st (PyInt 0) 0 eq_refl).
    by rewrite bool_decide_eq_true_2 by done.
  - intros Hpos. exists ((i - 1) / 2).
    rewrite (parent_index_int self st (PyInt i) i eq_refl).
    rewrite bool_decide_eq_true_2 by done.
    destruct (Z.eqb_spec i 0); [lia|]. split; [done|]. split; [lia|].
    rewrite (left_index_int self st (PyInt ((i - 1) / 2)) _ eq_refl).
    rewrite (right_index_int self st (PyInt ((i - 1) / 2)) _ eq_refl).
    rewrite bool_decide_eq_true_2 by lia.
    destruct (Z.eq_dec (2 * ((i - 1) / 2) + 1) i) as [Heq|Hne].
    + left. rewrite bool_decide_eq_true_2 by lia. by rewrite Heq.
    + right. rewrite bool_decide_eq_true_2 by lia. do 2 f_equal. lia.
Qed.

(** X2. For a valid index [i] of a heap of [n] nodes, [_has_children] answers
    whether [i < n // 2], a node with a right child has a left child, and the
    index [n // 2], from which [_build_heap] starts, has no children. *)
Theorem has_children_below_the_middle (st : pystate) (self : loc) (i : Z) :
  let n := Z.of_nat (length (heap_of st self)) in
  0 <= i < n ->
  BinaryHeap._has_children self (PyInt i) st = (Return (bool_decide (i < n / 2)), st) /\
  (BinaryHeap._right_index self (PyInt i) st <> (Return (-1), st) ->
   BinaryHeap._left_index self (PyInt i) st = (Return (2 * i + 1), st)) /\
  BinaryHeap._has_children self (PyInt (n / 2)) st = (Return false, st).
Proof.
  intros n Hi. split; [|split].
  - rewrite (has_children_int self st (PyInt i) i eq_refl). fold n.
    rewrite bool_decide_eq_true_2 by done. do 2 f_equal.
    repeat case_bool_decide; try lia; done.
  - rewrite (right_index_int self st (PyInt i) i eq_refl),
            (left_index_int self st (PyInt i) i eq_refl). fold n.
    rewrite !bool_decide_eq_true_2 by done.
    repeat case_bool_decide; try lia; done.
  - rewrite (has_children_int self st (PyInt (n / 2)) _ eq_refl). fold n.
    rewrite bool_decide_eq_true_2 by lia. do 2 f_equal.
    apply bool_decide_eq_false_2. lia.
Qed.

(** X3. For two valid indices, [_is_child(c, i)] and [_is_parent(i, c)] give
    the same answer, which is [True] exactly when [_parent_index(c)] is
    [i]. *)
Theorem is_child_mirrors_is_parent (st : pystate) (self : loc) (c i : Z) :
  let n := Z.of_nat (length (heap_of st self)) in
  0 <= c < n -> 0 <= i < n ->
  exists b : bool,
    BinaryHeap._is_child self (PyInt c) (PyInt i) st = (Return b, st) /\
    BinaryHeap._is_parent self (PyInt i) (PyInt c) st = (Return b, st) /\
    (b = true <-> BinaryHeap._parent_index self (PyInt c) st = (Return i, st)).
Proof.
  intros n Hc Hi. exists (bool_decide (c = 2 * i + 1 \/ c = 2 * i + 2)).
  rewrite (is_child_int self st (PyInt c) (PyInt i) c i eq_refl eq_refl),
          (is_parent_int self st (PyInt i) (PyInt c) i c eq_refl eq_refl),
          (parent_index_int self st (PyInt c) c eq_refl). fold n.
  rewrite !bool_decide_eq_true_2 by done. cbn [andb].
  split; [done|]. split; [done|].
  rewrite bool_decide_eq_true. destruct (Z.eqb_spec c 0).
  - split; [lia|]. intros [= Heq]. lia.
  - split; [intros; do 2 f_equal; lia|]. intros [= Heq]. lia.
Qed.

(** X4. For two valid indices, [_is_grandchild(g, i)] and
    [_is_grandparent(i, g)] give the same answer, which is [True] exactly
    when [_grandparent_index(g)] is [i], that is when [g] is one of
    [4i + 3], ..., [4i + 6]. *)
Theorem is_grandchild_mirrors_is_grandparent (st : pystate) (self : loc) (g i : Z) :
  let n := Z.of_nat (length (heap_of st self)) in
  0 <= g < n -> 0 <= i < n ->
  exists b : bool,
    BinaryHeap._is_grandchild self (PyInt g) (PyInt i) st = (Return b, st) /\
    BinaryHeap._is_grandparent self (PyInt i) (PyInt g) st = (Return b, st) /\
    (b = true <-> BinaryHeap._grandparent_index self (PyInt g) st = (Return i, st)) /\
    (b = true <-> 4 * i + 3 <= g <= 4 * i + 6).
Proof.
  intros n Hg Hi. exists (bool_decide (4 * i + 3 <= g <= 4 * i + 6)).
  rewrite (is_grandchild_int self st (PyInt g) (PyInt i) g i eq_refl eq_refl),
          (is_grandparent_int self st (PyInt i) (PyInt g) i g eq_refl eq_refl),
          (grandparent_index_int self st (PyInt g) g eq_refl). fold n.
  rewrite !bool_decide_eq_true_2 by done.
  split; [done|]. split; [done|].
  rewrite bool_decide_eq_true. split; [|done].
  destruct (Z.ltb_spec g 3).
  - split; [lia|]. intros [= Heq]. lia.
  - split; [intros; do 2 f_equal; lia|]. intros [= Heq]. lia.
Qed.

(** ** Indices that are refused *)

Section BadIndices.

Variables (self : loc) (st : pystate).

Lemma parent_index_other (x : pyobj) :
  int_value x = None ->
  BinaryHeap._parent_index self x st = (Raise (TypeError "indexes can only be int."), st).
Proof.
  intros Hx. unfold BinaryHeap._parent_index.
  by rewrite bind_unfold, (good_index_other self st x Hx).
Qed.

Lemma left_index_other (x : pyobj) :
  int_value x = None ->
  BinaryHeap._left_index self x st = (Raise (TypeError "indexes can only be int."), st).
Proof.
  intros Hx. unfold BinaryHeap._left_index.
  by rewrite bind_unfold, (good_index_other self st x Hx).
Qed.

Lemma right_index_other (x : pyobj) :
  int_value x = None ->
  BinaryHeap._right_index self x st = (Raise (TypeError "indexes can only be int."), st).
Proof.
  intros Hx. unfold BinaryHeap._right_index.
  by rewrite bind_unfold, (good_index_other self st x Hx).
Qed.

Lemma is_child_outcome (xc xi : pyobj) :
  (BinaryHeap._is_child self xc xi st).2 = st /\
  forall e, (BinaryHeap._is_child self xc xi st).1 = Raise e ->
            class_of e = CIndexError \/ class_of e = CTypeError.
Proof.
  destruct (int_value xc) as [c|] eqn:Hc.
  - destruct (int_value xi) as [i|] eqn:Hi.
    + rewrite (is_child_int self st xc xi c i Hc Hi).
      destruct (_ && _); (split; [done|]); intros e [= <-]. by left.
    + unfold BinaryHeap._is_child.
      rewrite bind_unfold, (good_index_int self st xc c Hc). cbn [fst snd].
      case_bool_decide; cbn [negb].
      * rewrite bind_unfold, (good_index_other self st xi Hi). cbn [fst snd].
        split; [done|]. intros e [= <-]. by right.
      * rewrite bind_unfold. cbn [ret fst snd orb].
        split; [done|]. intros e [= <-]. by left.
  - unfold BinaryHeap._is_child.
    rewrite bind_unfold, (good_index_other self st xc Hc). cbn [fst snd].
    split; [done|]. intros e [= <-]. by right.
Qed.

End BadIndices.

(** X5. An [int] outside [0, size), negative ones included, is refused by
    [_parent_index], [_left_index], [_right_index], [_grandparent_index] and
    [_has_children] with an [IndexError], and an object that is no [int] with
    a [TypeError]; the store is as before. *)
Theorem index_functions_refuse_bad_indices (st : pystate) (self : loc) (x : pyobj) :
  let n := Z.of_nat (length (heap_of st self)) in
  (forall i, int_value x = Some i -> ~ 0 <= i < n ->
     Forall (fun f : loc -> pyobj -> M Z =>
               f self x st = (Raise (IndexError "i is not a valid index."), st))
            [BinaryHeap._parent_index; BinaryHeap._left_index;
             BinaryHeap._right_index; BinaryHeap._grandparent_index] /\
     BinaryHeap._has_children self x st
       = (Raise (IndexError "i is not a valid index."), st)) /\
  (int_value x = None ->
     Forall (fun f : loc -> pyobj -> M Z =>
               f self x st = (Raise (TypeError "indexes can only be int."), st))
            [BinaryHeap._parent_index; BinaryHeap._left_index;
             BinaryHeap._right_index; BinaryHeap._grandparent_index] /\
     BinaryHeap._has_children self x st
       = (Raise (TypeError "indexes can only be int."), st)).
Proof.
  intros n. split.
  - intros i Hx Hi. split.
    + repeat constructor.
      * rewrite (parent_index_int self st x i Hx). by rewrite bool_decide_eq_false_2.
      * rewrite (left_index_int self st x i Hx). by rewrite bool_decide_eq_false_2.
      * rewrite (right_index_int self st x i Hx). by rewrite bool_decide_eq_false_2.
      * rewrite (grandparent_index_int self st x i Hx). by rewrite bool_decide_eq_false_2.
    + rewrite (has_children_int self st x i Hx). by rewrite bool_decide_eq_false_2.
  - intros Hx. split.
    + repeat constructor.
      * by apply parent_index_other.
      * by apply left_index_other.
      * by apply right_index_other.
      * unfold BinaryHeap._grandparent_index.
        by rewrite bind_unfold, (parent_index_other self st x Hx).
    + unfold BinaryHeap._has_children.
      by rewrite bind_unfold, (good_index_other self st x Hx).
Qed.

(** X6. The assertion inside [_is_grandchild] never fails: whatever the two
    arguments are, the method writes nothing and, when it raises, raises an
    [IndexError] or a [TypeError]. *)
Theorem is_grandchild_never_fails_its_assertion
    (st : pystate) (self : loc) (xg xi : pyobj) :
  (BinaryHeap._is_grandchild self xg xi st).2 = st /\
  (BinaryHeap._is_grandchild self xg xi st).1 <> Raise AssertionError /\
  forall e, (BinaryHeap._is_grandchild self xg xi st).1 = Raise e ->
            class_of e = CIndexError \/ class_of e = CTypeError.
Proof.
  assert (Hmain : (BinaryHeap._is_grandchild self xg xi st).2 = st /\
    forall e, (BinaryHeap._is_grandchild self xg xi st).1 = Raise e ->
              class_of e = CIndexError \/ class_of e = CTypeError).
  { unfold BinaryHeap._is_grandchild.
    destruct (int_value xi) as [i|] eqn:Hi.
    - rewrite bind_unfold, (left_index_int self st xi i Hi).
      case_bool_decide as Hiv; cbn [fst snd];
        [|split; [done|]; intros e [= <-]; by left].
      case_bool_decide as Hl.
      + destruct (Z.eqb_spec (2 * i + 1) (-1)); [lia|].
        rewrite bind_unfold, (right_index_int self st xi i Hi).
        rewrite bool_decide_eq_true_2 by done. cbn [fst snd].
        pose proof (is_child_outcome self st xg (PyInt (2 * i + 1))) as [Hs1 He1].
        pose proof (is_child_outcome self st xg (PyInt (2 * i + 2))) as [Hs2 He2].
        case_bool_decide as Hr.
        * destruct (Z.eqb_spec (2 * i + 2) (-1)); [lia|].
          rewrite bind_unfold.
          destruct (BinaryHeap._is_child self xg (PyInt (2 * i + 1)) st)
            as [[[]|e1] st1]; cbn [fst snd] in *; subst st1.
          -- split; [done|]. by intros e [=].
          -- done.
          -- split; [done|]. intros e [= <-]. by apply He1.
        * rewrite Z.eqb_refl. done.
      + rewrite Z.eqb_refl.
        rewrite bind_unfold, (right_index_int self st xi i Hi).
        rewrite bool_decide_eq_true_2 by done. cbn [fst snd].
        rewrite bool_decide_eq_false_2 by lia. rewrite Z.eqb_refl. cbn [negb].
        rewrite bind_unfold. rewrite is_good_index_unfold.
        destruct (int_value xg) as [g|]; cbn [fst snd].
        * case_bool_decide; cbn [negb]; (split; [done|]); intros e [=]. subst e. by left.
        * split; [done|]. intros e [= <-]. by right.
    - rewrite bind_unfold, (left_index_other self st xi Hi). cbn [fst snd].
      split; [done|]. intros e [= <-]. by right. }
  destruct Hmain as [Hst Herr]. split; [done|]. split; [|done].
  intros Hassert. destruct (Herr _ Hassert) as [Hc|Hc]; discriminate Hc.
Qed.

(** ** Swapping two nodes *)

Lemma swap_nodes_lookup (h : list BHNode) (i j : nat) (a b : BHNode) (k : nat) :
  h !! i = Some a -> h !! j = Some b ->
  swap_nodes h i j !! k =
  if decide (k = j) then Some a else if decide (k = i) then Some b else h !! k.
Proof.
  intros Hi Hj. unfold swap_nodes. rewrite Hi, Hj.
  pose proof (lookup_lt_Some _ _ _ Hi). pose proof (lookup_lt_Some _ _ _ Hj).
  rewrite !list_lookup_insert, length_insert.
  repeat case_decide; try done; lia.
Qed.

Lemma swap_nodes_length (h : list BHNode) (i j : nat) :
  length (swap_nodes h i j) = length h.
Proof. apply Permutation_length, swap_nodes_perm. Qed.

Lemma swap_nodes_twice (h : list BHNode) (i j : nat) :
  swap_nodes (swap_nodes h i j) i j = h.
Proof.
  destruct (h !! i) as [a|] eqn:Hi; [|by unfold swap_nodes; rewrite !Hi].
  destruct (h !! j) as [b|] eqn:Hj; [|by unfold swap_nodes; rewrite Hi, !Hj, Hi].
  apply list_eq. intros k.
  assert (swap_nodes h i j !! i = Some b) as Hi'.
  { rewrite (swap_nodes_lookup h i j a b i Hi Hj).
    repeat case_decide; congruence. }
  assert (swap_nodes h i j !! j = Some a) as Hj'.
  { rewrite (swap_nodes_lookup h i j a b j Hi Hj). by rewrite decide_True. }
  rewrite (swap_nodes_lookup _ i j b a k Hi' Hj').
  repeat case_decide; subst; try done.
  by rewrite (swap_nodes_lookup h i j a b k Hi Hj), !decide_False.
Qed.

Lemma swap_int (self : loc) (st : pystate) (xi xj : pyobj) (i j : Z) :
  int_value xi = Some i -> int_value xj = Some j ->
  BinaryHeap._swap self xi xj st =
  if bool_decide (0 <= i < Z.of_nat (length (heap_of st self)))
     && bool_decide (0 <= j < Z.of_nat (length (heap_of st self)))
  then (Return tt,
        mkState (<[self := swap_nodes (heap_of st self) (Z.to_nat i) (Z.to_nat j)]> (heaps st))
                (calls st))
  else (Raise (IndexError "i or j are not valid indexes."), st).
Proof.
  intros Hi Hj. unfold BinaryHeap._swap.
  rewrite bind_unfold, (good_index_int self st xi i Hi). cbn [fst snd].
  case_bool_decide as Hiv; cbn [andb]; [|by rewrite bind_unfold].
  rewrite bind_unfold, (good_index_int self st xj j Hj). cbn [fst snd].
  case_bool_decide as Hjv; [|done].
  rewrite bind_unfold. cbn [get_heap fst snd].
  rewrite (index_value_int xi i Hi), (index_value_int xj j Hj).
  unfold swap_nodes.
  destruct (lookup_lt_is_Some_2 (heap_of st self) (Z.to_nat i)) as [a Ha]; [lia|].
  destruct (lookup_lt_is_Some_2 (heap_of st self) (Z.to_nat j)) as [b Hb]; [lia|].
  by rewrite Ha, Hb.
Qed.

(** X7. [_swap(i, j)] on two valid indices exchanges the nodes at [i] and [j]
    and leaves every other position, the other heaps and the length as they
    were; doing it twice gives the list back.  With an [int] out of range it
    raises [IndexError] and changes nothing. *)
Theorem swap_exchanges_two_nodes (st : pystate) (self : loc) (i j : Z) :
  let h := heap_of st self in
  let st' := (BinaryHeap._swap self (PyInt i) (PyInt j) st).2 in
  (0 <= i < Z.of_nat (length h) -> 0 <= j < Z.of_nat (length h) ->
     (BinaryHeap._swap self (PyInt i) (PyInt j) st).1 = Return tt /\
     heap_of st' self !! Z.to_nat i = h !! Z.to_nat j /\
     heap_of st' self !! Z.to_nat j = h !! Z.to_nat i /\
     (forall k : nat, k <> Z.to_nat i -> k <> Z.to_nat j -> heap_of st' self !! k = h !! k) /\
     heap_of st' self ≡ₚ h /\
     (forall l, l <> self -> heaps st' !! l = heaps st !! l) /\
     calls st' = calls st /\
     heap_of (BinaryHeap._swap self (PyInt i) (PyInt j) st').2 self = h) /\
  (~ (0 <= i < Z.of_nat (length h) /\ 0 <= j < Z.of_nat (length h)) ->
     BinaryHeap._swap self (PyInt i) (PyInt j) st
     = (Raise (IndexError "i or j are not valid indexes."), st)).
Proof.
  intros h st'. subst st'.
  rewrite (swap_int self st (PyInt i) (PyInt j) i j eq_refl eq_refl). fold h.
  split.
  - intros Hi Hj. rewrite !bool_decide_eq_true_2 by done. cbn [andb fst snd].
    rewrite heap_of_insert_eq.
    destruct (lookup_lt_is_Some_2 h (Z.to_nat i)) as [a Ha]; [lia|].
    destruct (lookup_lt_is_Some_2 h (Z.to_nat j)) as [b Hb]; [lia|].
    split; [done|]. split; [|split; [|split; [|split; [|split; [|split]]]]].
    + rewrite (swap_nodes_lookup h _ _ a b _ Ha Hb), Hb.
      repeat case_decide; congruence.
    + rewrite (swap_nodes_lookup h _ _ a b _ Ha Hb), Ha. by rewrite decide_True.
    + intros k Hki Hkj. rewrite (swap_nodes_lookup h _ _ a b _ Ha Hb).
      by rewrite !decide_False.
    + apply swap_nodes_perm.
    + intros l Hl. simpl. by rewrite lookup_insert_ne.
    + done.
    + rewrite (swap_int self _ (PyInt i) (PyInt j) i j eq_refl eq_refl).
      rewrite heap_of_insert_eq, swap_nodes_length.
      rewrite !bool_decide_eq_true_2 by done. cbn [andb snd].
      by rewrite heap_of_insert_eq, swap_nodes_twice.
  - intros Hbad. repeat case_bool_decide; cbn [andb]; try done. tauto.
Qed.

(** ** What the constructor makes of its argument *)

Lemma node_of_element_step (x : pyobj) (rest : list pyobj) (acc : list BHNode) :
  (forall n, node_of_element x n ->
     BinaryHeap.create_nodes_loop (x :: rest) acc
     = BinaryHeap.create_nodes_loop rest (acc ++ [n])) /\
  ((forall n, ~ node_of_element x n) ->
     exists e, BinaryHeap.create_nodes_loop (x :: rest) acc = Raise e).
Proof.
  cbn [BinaryHeap.create_nodes_loop]. split.
  - intros n [[Hnum ->]|(k & v & Hx & Hk & Hv & ->)].
    + rewrite Hnum. by destruct x.
    + rewrite (items_not_number x _ Hx). unfold py_len, py_getitem. rewrite Hx.
      cbn [length Z.of_nat Pos.of_succ_nat Pos.succ Z.eqb Pos.eqb negb obind
           lookup list_lookup].
      by destruct k, v.
  - intros Hnone. destruct (isinstance_int_float x) eqn:Hnum.
    + exfalso. apply (Hnone (mkBHNode x x)). by left.
    + unfold py_len, py_getitem. destruct (items x) as [xs|] eqn:Hx; [|by eexists].
      cbn [obind]. destruct xs as [|k [|v [|w xs]]]; try by eexists.
      2: { replace (Z.of_nat (length (k :: v :: w :: xs)) =? 2) with false
             by (symmetry; apply Z.eqb_neq; cbn [length]; lia).
           by eexists. }
      cbn [length Z.of_nat Pos.of_succ_nat Pos.succ Z.eqb Pos.eqb negb obind
           lookup list_lookup].
      destruct (is_none k || is_none v) eqn:Hkv; [by eexists|].
      exfalso. apply (Hnone (mkBHNode k v)). right. exists k, v.
      apply orb_false_elim in Hkv as [Hk Hv].
      repeat split; try done; intros ->; done.
Qed.

Lemma node_of_element_dec (x : pyobj) :
  (exists n, node_of_element x n) \/ (forall n, ~ node_of_element x n).
Proof.
  destruct (isinstance_int_float x) eqn:Hnum.
  { left. exists (mkBHNode x x). by left. }
  assert (Hpair : forall n, node_of_element x n ->
            exists k v, items x = Some [k; v] /\ k <> PyNone /\ v <> PyNone).
  { intros n [[Hn _]|(k & v & Hx & Hk & Hv & _)]; [congruence|]. by exists k, v. }
  destruct (items x) as [[|k [|v [|w xs]]]|] eqn:Hx;
    try (right; intros n Hn; destruct (Hpair n Hn) as (? & ? & [=] & _); fail).
  destruct (is_none k) eqn:Hk.
  { right. intros n Hn. destruct (Hpair n Hn) as (? & ? & [= <- <-] & Hk' & _).
    by destruct k. }
  destruct (is_none v) eqn:Hv.
  { right. intros n Hn. destruct (Hpair n Hn) as (? & ? & [= <- <-] & _ & Hv').
    by destruct v. }
  left. exists (mkBHNode k v). right. exists k, v.
  repeat split; try done; intros ->; done.
Qed.

Lemma node_of_element_unique (x : pyobj) (n m : BHNode) :
  node_of_element x n -> node_of_element x m -> n = m.
Proof.
  intros [[Hn ->]|(k & v & Hx & _ & _ & ->)] [[Hm ->]|(k' & v' & Hx' & _ & _ & ->)];
    try done.
  - apply items_not_number in Hx'. congruence.
  - apply items_not_number in Hx. congruence.
  - congruence.
Qed.

Lemma create_nodes_loop_spec (ls : list pyobj) (acc res : list BHNode) :
  BinaryHeap.create_nodes_loop ls acc = Return res <->
  exists nodes, res = acc ++ nodes /\ Forall2 node_of_element ls nodes.
Proof.
  revert acc. induction ls as [|x ls IH]; intros acc.
  - cbn [BinaryHeap.create_nodes_loop]. split.
    + intros [= <-]. exists []. by rewrite app_nil_r.
    + intros (nodes & -> & Hall). inversion Hall. by rewrite app_nil_r.
  - destruct (node_of_element_step x ls acc) as [Hstep Hfail]. split.
    + intros Hrun.
      destruct (node_of_element_dec x) as [[n Hn]|Hno].
      * rewrite (Hstep n Hn) in Hrun. apply IH in Hrun as (nodes & -> & Hall).
        exists (n :: nodes). split; [by rewrite <- app_assoc|]. by constructor.
      * destruct (Hfail Hno) as [e He]. congruence.
    + intros (nodes & -> & Hall). inversion Hall as [|? n ? nodes' Hn Hall']; subst.
      rewrite (Hstep n Hn). apply IH. exists nodes'.
      split; [by rewrite <- app_assoc|done].
Qed.

Lemma node_of_element_not_none (x : pyobj) (n : BHNode) :
  node_of_element x n -> key n <> PyNone /\ value n <> PyNone.
Proof.
  intros [[Hnum ->]|(k & v & _ & Hk & Hv & ->)]; [|done].
  by destruct x.
Qed.

(** X8. [_create_list_of_heap_nodes] returns exactly when every element of
    its argument is a number or a string, tuple or list of two items that are
    not [None]; it then returns one node for each element, in the order of
    the elements, a number being both key and value of its node; and no node
    it returns has [None] for key or for value. *)
Theorem create_list_of_heap_nodes_elementwise (ls : list pyobj) (nodes : list BHNode) :
  (BinaryHeap._create_list_of_heap_nodes ls = Return nodes <->
   Forall2 node_of_element ls nodes) /\
  (BinaryHeap._create_list_of_heap_nodes ls = Return nodes ->
   length nodes = length ls /\
   Forall (fun n => key n <> PyNone /\ value n <> PyNone) nodes).
Proof.
  assert (Hiff : BinaryHeap._create_list_of_heap_nodes ls = Return nodes <->
                 Forall2 node_of_element ls nodes).
  { unfold BinaryHeap._create_list_of_heap_nodes. rewrite create_nodes_loop_spec.
    split; [by intros (? & -> & ?)|]. intros Hall. by exists nodes. }
  split; [done|]. intros Hrun. apply Hiff in Hrun. split.
  - symmetry. by eapply Forall2_length.
  - clear Hiff. induction Hrun as [|x n ls nodes Hn _ IH]; constructor; [|done].
    by eapply node_of_element_not_none.
Qed.

(** ** Construction and clearing *)

Section Lifecycle.

Context {variant : Variant}.

(** X9. A constructor that returns has made a heap at a location that was
    not in use, with one node for each element of its argument: the hook only
    permuting the list, the heap holds exactly the nodes of the elements,
    [size()] is the number of elements, and no other heap has changed. *)
Theorem constructor_keeps_every_element
    (st st' : pystate) (ls : option (list pyobj)) (self : loc) :
  hook_permutes _push_down ->
  BinaryHeap.__init__ ls st = (Return self, st') ->
  exists nodes,
    Forall2 node_of_element (default [] ls) nodes /\
    heap_of st' self ≡ₚ nodes /\
    BinaryHeap.size self st' = (Return (Z.of_nat (length (default [] ls))), st') /\
    heaps st !! self = None /\
    (forall l, l <> self -> heaps st' !! l = heaps st !! l).
Proof.
  intros Hperm. rewrite init_unfold.
  destruct (BinaryHeap._create_list_of_heap_nodes (default [] ls)) as [nodes|e] eqn:Hc;
    [|done].
  cbv zeta.
  set (new := fresh (dom (heaps st))).
  set (st1 := mkState (<[new := nodes]> (heaps st)) (calls st)).
  destruct (BinaryHeap._build_heap new st1).1 eqn:Hb; [|done].
  intros [= <- <-]. exists nodes.
  unfold BinaryHeap._create_list_of_heap_nodes in Hc.
  apply create_nodes_loop_spec in Hc as (nodes' & Heq & Hall).
  cbn [app] in Heq. subst nodes'.
  pose proof (build_heap_perm new st1 Hperm) as Hp.
  subst st1. rewrite heap_of_insert_eq in Hp.
  split; [done|]. split; [done|]. split; [|split].
  - rewrite size_unfold. do 3 f_equal.
    rewrite (Permutation_length Hp). symmetry. by eapply Forall2_length.
  - apply not_elem_of_dom. apply is_fresh.
  - intros l Hl. rewrite build_heap_frame by done. simpl. by rewrite lookup_insert_ne.
Qed.

(** X10. [clear] always returns, and afterwards [size()] is [0] and
    [is_empty()] is [True], while the other heaps and the call history are
    untouched; [is_empty] is [True] exactly on an empty list.  An [add] that
    follows a [clear] leaves a heap of that one node and calls no hook. *)
Theorem clear_then_add (st : pystate) (self : loc) (x : pyobj) :
  let st1 := (BinaryHeap.clear self st).2 in
  BinaryHeap.clear self st = (Return tt, st1) /\
  BinaryHeap.size self st1 = (Return 0, st1) /\
  BinaryHeap.is_empty self st1 = (Return true, st1) /\
  BinaryHeap.is_empty self st = (Return (bool_decide (heap_of st self = [])), st) /\
  (forall l, l <> self -> heaps st1 !! l = heaps st !! l) /\
  calls st1 = calls st /\
  (x <> PyNone ->
   exists node,
     BinaryHeap.as_node x = Return node /\
     BinaryHeap.add self x st1
     = (Return tt, mkState (<[self := [node]]> (heaps st)) (calls st))).
Proof.
  intros st1. subst st1. unfold BinaryHeap.clear, set_heap. cbn [fst snd].
  split; [done|]. split; [|split; [|split; [|split; [|split]]]].
  - by rewrite size_unfold, heap_of_insert_eq.
  - unfold BinaryHeap.is_empty. by rewrite bind_unfold, size_unfold, heap_of_insert_eq.
  - unfold BinaryHeap.is_empty. rewrite bind_unfold, size_unfold. cbn [fst snd].
    unfold ret. do 2 f_equal. destruct (heap_of st self); [done|].
    rewrite bool_decide_eq_false_2 by done. apply Z.eqb_neq. cbn [length]. lia.
  - intros l Hl. simpl. by rewrite lookup_insert_ne.
  - done.
  - intros Hx. rewrite add_unfold, (as_node_not_none x Hx).
    replace (is_none x) with false by by destruct x.
    eexists. split; [reflexivity|].
    cbv zeta. rewrite heap_of_insert_eq. cbn [app length Z.of_nat Pos.of_succ_nat Z.ltb Z.compare Pos.compare Pos.compare_cont].
    simpl heaps. by rewrite insert_insert_eq.
Qed.

End Lifecycle.

(** ** Searching *)

Lemma search_loop_spec (x : BHNode) (h : list BHNode) (off : Z) :
  0 <= off ->
  match BinaryHeap.search_loop x off h with
  | Return r =>
      (r = -1 /\ Forall (fun m => BHNode.__eq__ m x = Return false) h) \/
      (exists k : nat,
         r = off + Z.of_nat k /\
         (exists m, h !! k = Some m /\ BHNode.__eq__ m x = Return true) /\
         forall (j : nat) m, (j < k)%nat -> h !! j = Some m ->
                             BHNode.__eq__ m x = Return false)
  | Raise e =>
      exists (k : nat) m,
        h !! k = Some m /\ BHNode.__eq__ m x = Raise e /\
        forall (j : nat) m', (j < k)%nat -> h !! j = Some m' ->
                             BHNode.__eq__ m' x = Return false
  end.
Proof.
  revert off. induction h as [|m h IH]; intros off Hoff.
  - left. by split.
  - cbn [BinaryHeap.search_loop].
    destruct (BHNode.__eq__ m x) as [[]|e] eqn:Hm; cbn [obind].
    + right. exists 0%nat. split; [lia|]. split; [by exists m|].
      intros j m' Hj. lia.
    + specialize (IH (off + 1) ltac:(lia)).
      destruct (BinaryHeap.search_loop x (off + 1) h) as [r|e].
      * destruct IH as [[-> Hall]|(k & -> & Hk & Hbefore)].
        -- left. split; [done|]. by constructor.
        -- right. exists (S k). split; [lia|]. split; [done|].
           intros [|j] m' Hj Hlook; [by inversion Hlook; subst|].
           apply (Hbefore j); [lia|done].
      * destruct IH as (k & m' & Hk & He & Hbefore).
        exists (S k), m'. split; [done|]. split; [done|].
        intros [|j] m'' Hj Hlook; [by inversion Hlook; subst|].
        apply (Hbefore j); [lia|done].
    + exists 0%nat, m. split; [done|]. split; [done|]. intros j m' Hj. lia.
Qed.

Lemma search_unfold (self : loc) (x : pyobj) (st : pystate) :
  x <> PyNone ->
  BinaryHeap.search self x st =
  (BinaryHeap.search_loop
     (match x with PyNode k v => mkBHNode k v | _ => mkBHNode x x end) 0 (heap_of st self),
   st).
Proof.
  intros Hx. unfold BinaryHeap.search.
  replace (is_none x) with false by by destruct x.
  rewrite bind_unfold. unfold lift at 1 2. cbn [fst snd].
  by rewrite (as_node_not_none x Hx).
Qed.

Lemma contains_unfold (self : loc) (x : pyobj) (st : pystate) :
  BinaryHeap.contains self x st =
  match BinaryHeap.search self x st with
  | (Return i, st') => (Return (negb (i =? -1)), st')
  | (Raise e, st') => (Raise e, st')
  end.
Proof. reflexivity. Qed.

(** X11. [search(x)], for an [x] that is not [None], compares the nodes of
    the list, from the front, with [x] (wrapped into a node if it is a raw
    key).  The index it returns is that of the first node equal to [x], and
    lies in [0, size); it returns [-1] only if every node compares unequal;
    it raises only what the comparison with the first node that cannot be
    compared raises.  [contains] is [True] exactly when [search] does not
    return [-1]. *)
Theorem search_returns_first_equal_node (st : pystate) (self : loc) (x : pyobj) :
  x <> PyNone ->
  let h := heap_of st self in
  let node := match x with PyNode k v => mkBHNode k v | _ => mkBHNode x x end in
  match (BinaryHeap.search self x st).1 with
  | Return i =>
      BinaryHeap.contains self x st = (Return (bool_decide (i <> -1)), st) /\
      ((i = -1 /\ Forall (fun m => BHNode.__eq__ m node = Return false) h) \/
       (0 <= i < Z.of_nat (length h) /\
        (exists m, h !! Z.to_nat i = Some m /\ BHNode.__eq__ m node = Return true) /\
        forall (j : nat) m, (Z.of_nat j < i) -> h !! j = Some m ->
                            BHNode.__eq__ m node = Return false))
  | Raise e =>
      BinaryHeap.contains self x st = (Raise e, st) /\
      exists (k : nat) m,
        h !! k = Some m /\ BHNode.__eq__ m node = Raise e /\
        forall (j : nat) m', (j < k)%nat -> h !! j = Some m' ->
                             BHNode.__eq__ m' node = Return false
  end.
Proof.
  intros Hx h node. rewrite contains_unfold, (search_unfold self x st Hx).
  fold h node. cbn [fst].
  pose proof (search_loop_spec node h 0 ltac:(lia)) as Hspec.
  destruct (BinaryHeap.search_loop node 0 h) as [i|e]; [|done].
  split.
  - do 2 f_equal. destruct (Z.eqb_spec i (-1)); case_bool_decide; done.
  - destruct Hspec as [Hnone|(k & -> & (m & Hk & Hm) & Hbefore)]; [by left|].
    right. pose proof (lookup_lt_Some _ _ _ Hk). split; [lia|].
    replace (Z.to_nat (0 + Z.of_nat k)) with k by lia.
    split; [by exists m|]. intros j m' Hj. apply Hbefore. lia.
Qed.

(** X12. In a heap whose nodes all have their key for value, as the nodes
    made of raw keys have, [search(x)] and [search_by_value(x)] agree for
    every [x] that is neither [None] nor a [BHNode]. *)
Theorem search_agrees_with_search_by_value (st : pystate) (self : loc) (x : pyobj) :
  x <> PyNone -> isinstance_BHNode x = false ->
  Forall (fun m => value m = key m) (heap_of st self) ->
  BinaryHeap.search self x st = BinaryHeap.search_by_value self x st.
Proof.
  intros Hx Hnode Hall. rewrite (search_unfold self x st Hx).
  unfold BinaryHeap.search_by_value. rewrite bind_unfold. cbn [get_heap fst snd lift].
  f_equal.
  replace (match x with PyNode k v => mkBHNode k v | _ => mkBHNode x x end)
    with (mkBHNode x x) by by destruct x.
  generalize 0. induction Hall as [|m h Hm _ IH]; intros off; [done|].
  cbn [BinaryHeap.search_loop BinaryHeap.search_by_value_loop].
  unfold BHNode.__eq__. cbn [key value]. rewrite Hm.
  destruct (py_eq (key m) x) as [[]|e]; cbn [obind]; [done|apply IH|done].
Qed.

(** ** Equality of plain objects *)









Section RoundTrip.

Context {variant : Variant}.



End RoundTrip.

(** ** The tree of a heap that is not empty *)

Lemma string_app_assoc (a b c : string) : (a +:+ b) +:+ c = a +:+ (b +:+ c).
Proof.
  induction a as [|ch a IH]; [done|].
  change (String ch ((a +:+ b) +:+ c) = String ch (a +:+ b +:+ c)). by f_equal.
Qed.

Lemma string_app_empty_r (a : string) : a +:+ "" = a.
Proof.
  induction a as [|ch a IH]; [done|].
  change (String ch (a +:+ "") = String ch a). by f_equal.
Qed.

Section PrinterShape.

Variables (math_log : Z -> Z -> Q) (builtin_str : pyobj -> outcome string)
  (inexact_column_width : Z -> Z -> outcome Z).

Lemma pretty_rows_acc (total_width : Z) (fill : ascii) (nodes : list pyobj)
    (i last_row : Z) (output : string) :
  pretty_rows math_log builtin_str inexact_column_width total_width fill nodes
    i last_row output =
  try rows <- pretty_rows math_log builtin_str inexact_column_width total_width fill
                nodes i last_row "" in
  Return (output +:+ rows).
Proof.
  revert i last_row output. induction nodes as [|x nodes IH]; intros i last_row output.
  - cbn. by rewrite string_app_empty_r.
  - cbn [pretty_rows]. cbv zeta.
    destruct (column_width_of inexact_column_width total_width _) as [w|e];
      cbn [obind]; [|done].
    destruct (py_str builtin_str x) as [text|e]; cbn [obind]; [|done].
    rewrite IH. symmetry. rewrite IH. symmetry.
    destruct (pretty_rows _ _ _ _ _ nodes _ _ "") as [rows|e]; cbn [obind]; [|done].
    f_equal. rewrite <- !string_app_assoc. f_equal.
    destruct (negb _); cbn [String.append]; by rewrite ?string_app_assoc.
Qed.


Lemma pretty_nonempty (x : pyobj) (nodes : list pyobj) (total_width : Z) (fill : ascii) :
  build_pretty_binary_heap math_log builtin_str inexact_column_width
    (PyList (x :: nodes)) total_width fill
  = try width <- column_width_of inexact_column_width total_width 0 in
    try text <- py_str builtin_str x in
    try rows <- pretty_rows math_log builtin_str inexact_column_width total_width fill
                  nodes (0 + 1) 0 "" in
    Return (newline +:+ newline +:+ (center text width fill +:+ rows)
            +:+ newline +:+ str_repeat "-" (total_width + 15) +:+ newline).
Proof.
  cbn [build_pretty_binary_heap length].
  replace (Z.of_nat (S (length nodes)) =? 0) with false by (symmetry; apply Z.eqb_neq; lia).
  cbn [pretty_rows]. cbv zeta.
  change (negb (0 =? 0)) with false. cbv iota.
  change (negb (0 =? -1)) with true. cbv iota.
  destruct (column_width_of inexact_column_width total_width 0) as [w|e];
    cbn [obind]; [|done].
  destruct (py_str builtin_str x) as [text|e]; cbn [obind]; [|done].
  rewrite pretty_rows_acc.
  destruct (pretty_rows _ _ _ _ _ nodes _ _ "") as [rows|e]; cbn [obind]; [|done].
  f_equal. cbn [String.append str_repeat]. unfold v_space, newline.
  cbn. rewrite !string_app_assoc. reflexivity.
Qed.


(** X15. When [repr] of a heap returns, it returns the sentence
    [Nothing to print: heap is empty.] exactly when the heap has no node: for
    a heap without nodes it returns the sentence, and for the others what it
    returns begins with two newlines. *)
Theorem repr_says_empty_only_for_an_empty_heap (st : pystate) (self : loc) :
  (heap_repr math_log builtin_str inexact_column_width st self
     = Return "Nothing to print: heap is empty."%string
   <-> heap_of st self = []) /\
  (forall s, heap_repr math_log builtin_str inexact_column_width st self = Return s ->
     heap_of st self = [] \/ exists rest, s = newline +:+ newline +:+ rest).
Proof.
  unfold heap_repr. destruct (heap_of st self) as [|m h]; cbn [map].
  - split; [done|]. intros s _. by left.
  - rewrite pretty_nonempty.
    destruct (column_width_of inexact_column_width 36 0) as [w|e];
      cbn [obind]; [|by split; [split|]].
    destruct (py_str builtin_str _) as [text|e]; cbn [obind]; [|by split; [split|]].
    destruct (pretty_rows _ _ _ _ _ _ _ _ "") as [rows|e]; cbn [obind];
      [|by split; [split|]].
    split.
    + split; [|done]. intros Habs. discriminate Habs.
    + intros s [= <-]. right. by eexists.
Qed.

End PrinterShape.

(** ** The further statements at work on sample heaps *)

Lemma child_and_parent_round_trip_witness :
  BinaryHeap._parent_index 1%positive (PyInt 0) three_nodes = (Return (-1), three_nodes) /\
  exists p,
    BinaryHeap._parent_index 1%positive (PyInt 2) three_nodes = (Return p, three_nodes) /\
    0 <= p < 2.
Proof.
  destruct (child_and_parent_round_trip three_nodes 1%positive 0) as (_ & _ & Hroot & _);
    [by compute|].
  destruct (child_and_parent_round_trip three_nodes 1%positive 2) as (_ & _ & _ & Hchild);
    [by compute|].
  split; [by apply Hroot|].
  destruct (Hchild ltac:(lia)) as (p & Hp & Hrange & _). by exists p.
Defined.

Lemma has_children_below_the_middle_witness :
  BinaryHeap._has_children 1%positive (PyInt 0) three_nodes = (Return true, three_nodes) /\
  BinaryHeap._has_children 1%positive (PyInt 1) three_nodes = (Return false, three_nodes).
Proof.
  destruct (has_children_below_the_middle three_nodes 1%positive 0) as (Hroot & _ & Hmid);
    [by compute|].
  split; [exact Hroot|exact Hmid].
Defined.

Lemma is_child_mirrors_is_parent_witness :
  exists b : bool,
    BinaryHeap._is_child 1%positive (PyInt 2) (PyInt 0) three_nodes = (Return b, three_nodes) /\
    BinaryHeap._is_parent 1%positive (PyInt 0) (PyInt 2) three_nodes = (Return b, three_nodes).
Proof.
  destruct (is_child_mirrors_is_parent three_nodes 1%positive 2 0) as (b & Hc & Hp & _);
    [by compute|by compute|].
  by exists b.
Defined.

Lemma is_grandchild_mirrors_is_grandparent_witness :
  exists b : bool,
    BinaryHeap._is_grandchild 1%positive (PyInt 2) (PyInt 0) three_nodes
      = (Return b, three_nodes) /\
    BinaryHeap._is_grandparent 1%positive (PyInt 0) (PyInt 2) three_nodes
      = (Return b, three_nodes) /\
    b <> true.
Proof.
  destruct (is_grandchild_mirrors_is_grandparent three_nodes 1%positive 2 0)
    as (b & Hc & Hp & _ & Hb); [by compute|by compute|].
  exists b. split; [done|]. split; [done|]. intros Htrue. apply Hb in Htrue. lia.
Defined.

Lemma constructor_keeps_every_element_witness :
  exists nodes,
    Forall2 node_of_element [PyInt 5; PyTuple [PyInt 3; PyStr "c"]] nodes /\
    heap_of (BinaryHeap.__init__ (variant := min_heap)
               (Some [PyInt 5; PyTuple [PyInt 3; PyStr "c"]]) empty_state).2 1%positive
      ≡ₚ nodes.
Proof.
  destruct (constructor_keeps_every_element (variant := min_heap) empty_state
              (BinaryHeap.__init__ (variant := min_heap)
                 (Some [PyInt 5; PyTuple [PyInt 3; PyStr "c"]]) empty_state).2
              (Some [PyInt 5; PyTuple [PyInt 3; PyStr "c"]]) 1%positive
              min_push_down_permutes)
    as (nodes & Hall & Hperm & _); [by vm_compute|].
  by exists nodes.
Defined.

Lemma search_returns_first_equal_node_witness :
  BinaryHeap.contains 1%positive (PyInt 3) three_nodes = (Return true, three_nodes) /\
  BinaryHeap.contains 1%positive (PyInt 4) three_nodes = (Return false, three_nodes).
Proof.
  pose proof (search_returns_first_equal_node three_nodes 1%positive (PyInt 3)
                ltac:(discriminate)) as Hfound.
  pose proof (search_returns_first_equal_node three_nodes 1%positive (PyInt 4)
                ltac:(discriminate)) as Hmissing.
  split; [exact (proj1 Hfound)|exact (proj1 Hmissing)].
Defined.

Lemma search_agrees_with_search_by_value_witness :
  BinaryHeap.search 1%positive (PyInt 8) three_nodes
  = BinaryHeap.search_by_value 1%positive (PyInt 8) three_nodes.
Proof.
  apply search_agrees_with_search_by_value; [discriminate|reflexivity|].
  repeat constructor.
Defined.


(** * Maximum sum of a contiguous subsequence *)

(** ** Loops and sums *)

Lemma for_range_invariant {St} (I : nat -> St -> Prop) (a b : nat)
    (body : nat -> St -> outcome St) (s0 : St) :
  (a <= b)%nat -> I a s0 ->
  (forall k s, (a <= k < b)%nat -> I k s -> exists s', body k s = Return s' /\ I (S k) s') ->
  exists s', MSCS.for_range (MSCS.range a b) body s0 = Return s' /\ I b s'.
Proof.
  unfold MSCS.range. intros Hab.
  remember (b - a)%nat as d eqn:Hd. revert a s0 Hab Hd.
  induction d as [|d IH]; intros a s0 Hab Hd H0 Hstep.
  - exists s0. split; [done|]. by replace b with a by lia.
  - cbn [List.seq MSCS.for_range].
    destruct (Hstep a s0 ltac:(lia) H0) as (s1 & -> & H1). cbn [obind].
    apply IH; [lia|lia|done|]. intros k s Hk. apply Hstep. lia.
Qed.

Lemma for_range_simulation {St T} (R : nat -> St -> T -> Prop) (a b : nat)
    (body1 : nat -> St -> outcome St) (body2 : nat -> T -> outcome T) (s0 : St) (t0 : T) :
  (a <= b)%nat -> R a s0 t0 ->
  (forall k s t, (a <= k < b)%nat -> R k s t ->
     exists s' t', body1 k s = Return s' /\ body2 k t = Return t' /\ R (S k) s' t') ->
  exists s' t',
    MSCS.for_range (MSCS.range a b) body1 s0 = Return s' /\
    MSCS.for_range (MSCS.range a b) body2 t0 = Return t' /\
    R b s' t'.
Proof.
  unfold MSCS.range. intros Hab.
  remember (b - a)%nat as d eqn:Hd. revert a s0 t0 Hab Hd.
  induction d as [|d IH]; intros a s0 t0 Hab Hd H0 Hstep.
  - exists s0, t0. split; [done|]. split; [done|]. by replace b with a by lia.
  - cbn [List.seq MSCS.for_range].
    destruct (Hstep a s0 t0 ltac:(lia) H0) as (s1 & t1 & -> & -> & H1). cbn [obind].
    apply IH; [lia|lia|done|]. intros k s t Hk. apply Hstep. lia.
Qed.

Lemma sum_snoc (l : list Z) (v : Z) : foldr Z.add 0 (l ++ [v]) = foldr Z.add 0 l + v.
Proof. induction l as [|x l IH]; cbn [foldr app]; lia. Qed.

Section Slices.

Variable seq : list Z.

Lemma getitem_in_range (k : nat) :
  (k < length seq)%nat -> exists v, seq !! k = Some v /\ MSCS.getitem seq k = Return v.
Proof.
  intros Hk. destruct (lookup_lt_is_Some_2 seq k Hk) as [v Hv].
  exists v. split; [done|]. unfold MSCS.getitem. by rewrite Hv.
Qed.

Lemma prefix_sum_step (i k : nat) (v : Z) :
  (i <= k)%nat -> seq !! k = Some v ->
  foldr Z.add 0 (take (S k - i) (drop i seq))
  = foldr Z.add 0 (take (k - i) (drop i seq)) + v.
Proof.
  intros Hik Hk. replace (S k - i)%nat with (S (k - i)) by lia.
  rewrite (take_S_r _ _ v), sum_snoc; [done|].
  rewrite lookup_drop. by replace (i + (k - i))%nat with k by lia.
Qed.

Lemma slice_sum_single (i : nat) (v : Z) :
  seq !! i = Some v -> slice_sum seq i i = v.
Proof.
  intros Hi. unfold slice_sum. rewrite (prefix_sum_step i i v) by done.
  rewrite Nat.sub_diag, take_0. cbn [foldr]. lia.
Qed.

Lemma slice_sum_extend (i j : nat) (v : Z) :
  (i <= j)%nat -> seq !! S j = Some v ->
  slice_sum seq i (S j) = slice_sum seq i j + v.
Proof.
  intros Hij Hj. unfold slice_sum. by rewrite (prefix_sum_step i (S j) v) by (done || lia).
Qed.

(** The innermost loop of [brute_force_mscs]. *)
Lemma sum_loop (i j : nat) :
  (i <= j < length seq)%nat ->
  MSCS.for_range (MSCS.range i (j + 1))
    (fun k _sum => try v <- MSCS.getitem seq k in Return (_sum + v)) 0
  = Return (slice_sum seq i j).
Proof.
  intros Hij.
  destruct (for_range_invariant
              (fun k s => s = foldr Z.add 0 (take (k - i) (drop i seq)))
              i (j + 1)
              (fun k _sum => try v <- MSCS.getitem seq k in Return (_sum + v)) 0)
    as (s & -> & ->).
  - lia.
  - by rewrite Nat.sub_diag, take_0.
  - intros k s Hk ->. destruct (getitem_in_range k ltac:(lia)) as (v & Hv & ->).
    eexists. split; [reflexivity|]. cbn [obind].
    by rewrite (prefix_sum_step i k v) by (done || lia).
  - unfold slice_sum. by replace (j + 1 - i)%nat with (S j - i)%nat by lia.
Qed.

End Slices.

(** ** The exhaustive searches *)

Section BruteForce.

Variable seq : list Z.

Lemma brute_inner_loop (i : nat) (t0 : Z * nat * nat) :
  (i < length seq)%nat ->
  is_slice_sum seq t0 ->
  (forall i' j' : nat, (i' <= j' < length seq)%nat -> (i' < i)%nat ->
     slice_sum seq i' j' <= t0.1.1) ->
  exists t,
    MSCS.for_range (MSCS.range i (length seq))
      (fun j '(_max, start, end_) =>
         try _sum <- MSCS.for_range (MSCS.range i (j + 1))
                       (fun k _sum => try v <- MSCS.getitem seq k in Return (_sum + v)) 0 in
         if _max <? _sum then Return (_sum, i, j)
         else Return (_max, start, end_))
      t0 = Return t /\
    is_slice_sum seq t /\
    (forall i' j' : nat, (i' <= j' < length seq)%nat -> (i' < S i)%nat ->
       slice_sum seq i' j' <= t.1.1).
Proof.
  intros Hi Hslice Hbound.
  destruct (for_range_invariant
    (fun j t => is_slice_sum seq t /\
       forall i' j' : nat, (i' <= j' < length seq)%nat ->
         (i' < i \/ (i' = i /\ j' < j))%nat -> slice_sum seq i' j' <= t.1.1)
    i (length seq)
    (fun j '(_max, start, end_) =>
         try _sum <- MSCS.for_range (MSCS.range i (j + 1))
                       (fun k _sum => try v <- MSCS.getitem seq k in Return (_sum + v)) 0 in
         if _max <? _sum then Return (_sum, i, j)
         else Return (_max, start, end_))
    t0) as (t & Hrun & Ht & Hall).
  - lia.
  - split; [done|]. intros i' j' Hrange [Hlt|[-> Hlt]]; [by apply Hbound|lia].
  - intros j [[m s] e] Hj [Hs Hb]. rewrite (sum_loop seq i j) by lia. cbn [obind].
    destruct (Z.ltb_spec m (slice_sum seq i j)) as [Hlt|Hge].
    + eexists. split; [reflexivity|]. split; [split; [lia|done]|].
      intros i' j' Hrange [Hlt'|[-> Hlt']]; cbn [fst].
      * specialize (Hb i' j' Hrange (or_introl Hlt')). cbn [fst] in Hb. lia.
      * destruct (decide (j' = j)) as [->|Hne]; [lia|].
        assert (j' < j)%nat as Hlt'' by lia.
        specialize (Hb i j' Hrange (or_intror (conj eq_refl Hlt''))).
        cbn [fst] in Hb. lia.
    + eexists. split; [reflexivity|]. split; [done|].
      intros i' j' Hrange [Hlt'|[-> Hlt']]; cbn [fst].
      * by apply (Hb i' j' Hrange (or_introl Hlt')).
      * destruct (decide (j' = j)) as [->|Hne]; [done|].
        apply (Hb i j' Hrange). right. split; [done|lia].
  - exists t. split; [done|]. split; [done|].
    intros i' j' Hrange Hlt. apply Hall; [done|]. lia.
Qed.

Lemma brute_force_spec :
  seq <> [] ->
  exists r, MSCS.brute_force_mscs seq = Return r /\ is_max_slice seq r.
Proof.
  intros Hne. unfold MSCS.brute_force_mscs.
  assert (0 < length seq)%nat as Hlen by (destruct seq; [done|cbn; lia]).
  destruct (getitem_in_range seq 0 Hlen) as (first & Hfirst & ->). cbn [obind].
  destruct (for_range_invariant
    (fun i t => is_slice_sum seq t /\
       forall i' j' : nat, (i' <= j' < length seq)%nat -> (i' < i)%nat ->
         slice_sum seq i' j' <= t.1.1)
    0 (length seq)
    (fun i best =>
       MSCS.for_range (MSCS.range i (length seq))
         (fun j '(_max, start, end_) =>
            try _sum <- MSCS.for_range (MSCS.range i (j + 1))
                          (fun k _sum => try v <- MSCS.getitem seq k in Return (_sum + v)) 0 in
            if _max <? _sum then Return (_sum, i, j)
            else Return (_max, start, end_))
         best)
    (first, 0%nat, 0%nat)) as (t & Hrun & Ht & Hall).
  - lia.
  - split; [|intros; lia]. split; [lia|]. by apply slice_sum_single.
  - intros i t Hi [Hs Hb]. by apply brute_inner_loop; [lia| |].
  - exists t. split; [done|]. split; [done|].
    intros i j Hrange. apply Hall; [done|lia].
Qed.

Lemma better_brute_force_same :
  MSCS.better_brute_force_mscs seq = MSCS.brute_force_mscs seq.
Proof.
  unfold MSCS.better_brute_force_mscs, MSCS.brute_force_mscs.
  destruct seq as [|first rest] eqn:Hseq; [done|]. rewrite <- Hseq.
  assert (MSCS.getitem seq 0 = Return first) as -> by by rewrite Hseq.
  cbn [obind].
  destruct (for_range_simulation
    (fun (i : nat) (s : Z * Z * nat * nat) (t : Z * nat * nat) =>
       (s.1.1.2, s.1.2, s.2) = t)
    0 (length seq)
    (fun i '(_, _max, start, end_) =>
       MSCS.for_range (MSCS.range i (length seq))
         (fun j '(_sum, _max, start, end_) =>
            try v <- MSCS.getitem seq j in
            if _max <? _sum + v then Return (_sum + v, _sum + v, i, j)
            else Return (_sum + v, _max, start, end_))
         (0, _max, start, end_))
    (fun i best =>
       MSCS.for_range (MSCS.range i (length seq))
         (fun j '(_max, start, end_) =>
            try _sum <- MSCS.for_range (MSCS.range i (j + 1))
                          (fun k _sum => try v <- MSCS.getitem seq k in Return (_sum + v)) 0 in
            if _max <? _sum then Return (_sum, i, j)
            else Return (_max, start, end_))
         best)
    (first, first, 0%nat, 0%nat) (first, 0%nat, 0%nat))
    as ([[[sm m] s] e] & t & -> & -> & Heq).
  - lia.
  - done.
  - intros i [[[sm m] s] e] t Hi Heq. cbn [fst snd] in Heq. subst t.
    destruct (for_range_simulation
      (fun (j : nat) (u : Z * Z * nat * nat) (t : Z * nat * nat) =>
         (u.1.1.2, u.1.2, u.2) = t /\
         u.1.1.1 = foldr Z.add 0 (take (j - i) (drop i seq)))
      i (length seq)
      (fun j '(_sum, _max, start, end_) =>
            try v <- MSCS.getitem seq j in
            if _max <? _sum + v then Return (_sum + v, _sum + v, i, j)
            else Return (_sum + v, _max, start, end_))
      (fun j '(_max, start, end_) =>
            try _sum <- MSCS.for_range (MSCS.range i (j + 1))
                          (fun k _sum => try v <- MSCS.getitem seq k in Return (_sum + v)) 0 in
            if _max <? _sum then Return (_sum, i, j)
            else Return (_max, start, end_))
      (0, m, s, e) (m, s, e)) as (u & t & Hu & Ht & Hrel & _).
    + lia.
    + split; [done|]. by rewrite Nat.sub_diag, take_0.
    + intros j [[[sm' m'] s'] e'] t Hj [Heq Hsum]. cbn [fst snd] in Heq, Hsum. subst t sm'.
      destruct (getitem_in_range seq j ltac:(lia)) as (v & Hv & ->).
      rewrite (sum_loop seq i j) by lia. cbn [obind]. cbv zeta.
      unfold slice_sum. rewrite (prefix_sum_step seq i j v) by (done || lia).
      destruct (_ <? _); eexists _, _; (split; [reflexivity|]); (split; [reflexivity|]);
        cbn [fst snd]; (split; done).
    + eexists _, _. split; [exact Hu|]. split; [exact Ht|]. exact Hrel.
  - cbn [obind fst snd] in *. by subst t.
Qed.

End BruteForce.

(** ** The linear scans *)

Section BottomUp.

Variable seq : list Z.

Lemma getitem_lookup {A} (l : list A) (k : nat) (v : A) :
  l !! k = Some v -> MSCS.getitem l k = Return v.
Proof. intros Hk. unfold MSCS.getitem. by rewrite Hk. Qed.

Lemma setitem_in_range {A} (l : list A) (k : nat) (v : A) :
  (k < length l)%nat -> MSCS.setitem l k v = Return (<[k := v]> l).
Proof. intros Hk. unfold MSCS.setitem. by rewrite bool_decide_eq_true_2. Qed.

Lemma better_bottom_up_spec :
  seq <> [] ->
  exists r, MSCS.better_bottom_up_mscs seq = Return r /\ is_max_slice seq r.
Proof.
  intros Hne. unfold MSCS.better_bottom_up_mscs.
  assert (0 < length seq)%nat as Hlen by (destruct seq; [done|cbn; lia]).
  destruct (getitem_in_range seq 0 Hlen) as (first & Hfirst & ->). cbn [obind].
  match goal with
  | |- context [MSCS.for_range _ ?body ?s0] =>
      destruct (for_range_invariant
        (fun (k : nat) (st : Z * Z * nat * nat * nat) =>
           let '(m, cur, index, s, e) := st in
           (1 <= k)%nat /\ (index <= k - 1)%nat /\
           cur = slice_sum seq index (k - 1) /\
           (forall s' : nat, (s' <= k - 1)%nat -> slice_sum seq s' (k - 1) <= cur) /\
           is_slice_sum seq (m, s, e) /\
           (forall i' j' : nat, (i' <= j')%nat -> (j' <= k - 1)%nat ->
              slice_sum seq i' j' <= m))
        1 (length seq) body s0) as ([[[[m cur] index] s] e] & Hrun & HI)
  end.
  - lia.
  - cbn [Nat.sub]. split; [lia|]. split; [lia|].
    split; [by rewrite (slice_sum_single seq 0 first)|]. split.
    { intros s' Hs'. replace s' with 0%nat by lia.
      by rewrite (slice_sum_single seq 0 first). }
    split; [split; [lia|by apply slice_sum_single]|].
    intros i' j' Hij Hj. replace i' with 0%nat by lia. replace j' with 0%nat by lia.
    by rewrite (slice_sum_single seq 0 first).
  - intros k [[[[m cur] index] s] e] Hk (Hk1 & Hindex & Hcur & Hending & Hslice & Hbound).
    destruct (getitem_in_range seq k ltac:(lia)) as (v & Hv & Hget).
    assert (forall a : nat, (a <= k - 1)%nat ->
              slice_sum seq a k = slice_sum seq a (k - 1) + v) as Hext.
    { intros a Ha. replace k with (S (k - 1)) at 1 by lia.
      apply slice_sum_extend; [done|]. by replace (S (k - 1)) with k by lia. }
    assert (forall cur' index',
              (index' <= k)%nat -> cur' = slice_sum seq index' k ->
              (forall s' : nat, (s' <= k)%nat -> slice_sum seq s' k <= cur') ->
              exists st',
                (if m <? cur' then Return (cur', cur', index', index', k)
                 else Return (m, cur', index', s, e)) = Return st' /\
                (let '(m, cur, index, s, e) := st' in
                 (1 <= S k)%nat /\ (index <= S k - 1)%nat /\
                 cur = slice_sum seq index (S k - 1) /\
                 (forall s' : nat, (s' <= S k - 1)%nat ->
                    slice_sum seq s' (S k - 1) <= cur) /\
                 is_slice_sum seq (m, s, e) /\
                 (forall i' j' : nat, (i' <= j')%nat -> (j' <= S k - 1)%nat ->
                    slice_sum seq i' j' <= m))) as Hupdate.
    { intros cur' index' Hi' Hc' He'.
      replace (S k - 1)%nat with k by lia.
      assert (forall i' j' : nat, (i' <= j')%nat -> (j' <= k)%nat ->
                slice_sum seq i' j' <= Z.max m cur') as Hall.
      { intros i' j' Hij Hj. destruct (decide (j' = k)) as [->|Hjk].
        - specialize (He' i' Hij). lia.
        - specialize (Hbound i' j' Hij ltac:(lia)). lia. }
      destruct (Z.ltb_spec m cur') as [Hlt|Hge]; eexists; (split; [reflexivity|]).
      - split; [lia|]. split; [done|]. split; [done|]. split; [done|].
        split; [split; [lia|done]|].
        intros i' j' Hij Hj. specialize (Hall i' j' Hij Hj). lia.
      - split; [lia|]. split; [done|]. split; [done|]. split; [done|].
        split; [done|].
        intros i' j' Hij Hj. specialize (Hall i' j' Hij Hj). lia. }
    rewrite Hget. destruct (Z.ltb_spec 0 cur) as [Hpos|Hnonpos]; cbn [obind].
    + apply Hupdate; [lia|rewrite Hext by done; lia|].
      intros s' Hs'. destruct (decide (s' = k)) as [->|Hsk].
      * rewrite (slice_sum_single seq k v) by done. lia.
      * rewrite Hext by lia. specialize (Hending s' ltac:(lia)). lia.
    + apply Hupdate; [lia|by rewrite (slice_sum_single seq k v)|].
      intros s' Hs'. destruct (decide (s' = k)) as [->|Hsk].
      * rewrite (slice_sum_single seq k v) by done. lia.
      * rewrite Hext by lia. specialize (Hending s' ltac:(lia)). lia.
  - rewrite Hrun. cbn [obind]. eexists. split; [reflexivity|].
    destruct HI as (_ & _ & _ & _ & Hslice & Hbound).
    split; [done|]. intros i j Hij. cbn [fst]. apply Hbound; lia.
Qed.

Lemma bottom_up_same :
  MSCS.bottom_up_mscs seq = MSCS.better_bottom_up_mscs seq.
Proof.
  unfold MSCS.bottom_up_mscs, MSCS.better_bottom_up_mscs.
  destruct (decide (seq = [])) as [Hnil|Hne]; [by rewrite Hnil|].
  assert (0 < length seq)%nat as Hlen by (destruct seq; [done|cbn; lia]).
  destruct (getitem_in_range seq 0 Hlen) as (first & Hfirst & ->). cbn [obind].
  rewrite setitem_in_range by by rewrite length_replicate.
  cbn [obind].
  rewrite (getitem_lookup _ 0 first)
    by (apply list_lookup_insert_eq; by rewrite length_replicate).
  cbn [obind].
  match goal with
  | |- (try final <- MSCS.for_range _ ?body1 ?s1 in _) =
       (try final' <- MSCS.for_range _ ?body2 ?s2 in _) =>
      destruct (for_range_simulation
        (fun (k : nat) (a : list Z * list nat * Z * nat * nat)
             (b : Z * Z * nat * nat * nat) =>
           let '(sums, idxs, m, s, e) := a in
           let '(m', cur, index, s', e') := b in
           (1 <= k)%nat /\ m = m' /\ s = s' /\ e = e' /\
           length sums = length seq /\ length idxs = length seq /\
           sums !! (k - 1)%nat = Some cur /\ idxs !! (k - 1)%nat = Some index)
        1 (length seq) body1 body2 s1 s2)
        as ([[[[sums idxs] m] s] e] & [[[[m' cur] index] s'] e'] & Hrun1 & Hrun2 & HR)
  end.
  - lia.
  - cbn [Nat.sub]. rewrite length_insert, !length_replicate.
    split; [lia|]. do 5 (split; [done|]). split.
    + apply list_lookup_insert_eq. by rewrite length_replicate.
    + destruct seq; [done|]. done.
  - intros k [[[[sums idxs] m] s] e] [[[[m' cur] index] s'] e'] Hk
           (Hk1 & <- & <- & <- & Hls & Hli & Hsum & Hidx).
    destruct (getitem_in_range seq k ltac:(lia)) as (v & Hv & Hget).
    rewrite (getitem_lookup sums (k - 1) cur Hsum). cbn [obind].
    rewrite Hget.
    destruct (0 <? cur); cbn [obind].
    + rewrite setitem_in_range by lia. cbn [obind].
      rewrite (getitem_lookup idxs (k - 1) index Hidx). cbn [obind].
      rewrite setitem_in_range by lia. cbn [obind].
      rewrite (getitem_lookup _ k (cur + v)) by (apply list_lookup_insert_eq; lia).
      cbn [obind].
      destruct (m <? cur + v).
      * rewrite (getitem_lookup _ k index) by (apply list_lookup_insert_eq; lia).
        cbn [obind]. eexists _, _. split; [reflexivity|]. split; [reflexivity|].
        rewrite !length_insert. replace (S k - 1)%nat with k by lia.
        split; [lia|]. do 5 (split; [done|]).
        split; apply list_lookup_insert_eq; lia.
      * eexists _, _. split; [reflexivity|]. split; [reflexivity|].
        rewrite !length_insert. replace (S k - 1)%nat with k by lia.
        split; [lia|]. do 5 (split; [done|]).
        split; apply list_lookup_insert_eq; lia.
    + rewrite setitem_in_range by lia. cbn [obind].
      rewrite setitem_in_range by lia. cbn [obind].
      rewrite (getitem_lookup _ k v) by (apply list_lookup_insert_eq; lia).
      cbn [obind].
      destruct (m <? v).
      * rewrite (getitem_lookup _ k k) by (apply list_lookup_insert_eq; lia).
        cbn [obind]. eexists _, _. split; [reflexivity|]. split; [reflexivity|].
        rewrite !length_insert. replace (S k - 1)%nat with k by lia.
        split; [lia|]. do 5 (split; [done|]).
        split; apply list_lookup_insert_eq; lia.
      * eexists _, _. split; [reflexivity|]. split; [reflexivity|].
        rewrite !length_insert. replace (S k - 1)%nat with k by lia.
        split; [lia|]. do 5 (split; [done|]).
        split; apply list_lookup_insert_eq; lia.
  - rewrite Hrun1, Hrun2. cbn [obind].
    destruct HR as (_ & -> & -> & -> & _). done.
Qed.

End BottomUp.

(** ** What the four functions return *)

(** X16. On the empty list [brute_force_mscs] raises the [IndexError] of
    [seq[0]]; on any other list of [int]s it returns [(m, s, e)] where
    [s <= e] are indices of the list, [m] is the sum of [seq[s..e]], and no
    contiguous slice has a larger sum. *)
Theorem brute_force_returns_a_maximal_slice (seq : list Z) :
  (seq = [] ->
   MSCS.brute_force_mscs seq = Raise (IndexError "list index out of range")) /\
  (seq <> [] ->
   exists (m : Z) (s e : nat),
     MSCS.brute_force_mscs seq = Return (m, s, e) /\
     (s <= e < length seq)%nat /\ slice_sum seq s e = m /\
     forall i j : nat, (i <= j < length seq)%nat -> slice_sum seq i j <= m).
Proof.
  split; [by intros ->|]. intros Hne.
  destruct (brute_force_spec seq Hne) as ([[m s] e] & Hrun & [Hrange Hsum] & Hmax).
  by exists m, s, e.
Qed.

(** X17. [better_brute_force_mscs], which keeps a running sum, returns on
    every list exactly what [brute_force_mscs] returns, the same error on the
    empty list and the same sum and indices otherwise. *)
Theorem better_brute_force_agrees_with_brute_force (seq : list Z) :
  MSCS.better_brute_force_mscs seq = MSCS.brute_force_mscs seq.
Proof. apply better_brute_force_same. Qed.

(** X18. On the empty list [better_bottom_up_mscs] raises the [IndexError]
    of [seq[0]]; on any other list of [int]s it returns [(m, s, e)] where
    [s <= e] are indices of the list, [m] is the sum of [seq[s..e]], and no
    contiguous slice has a larger sum. *)
Theorem better_bottom_up_returns_a_maximal_slice (seq : list Z) :
  (seq = [] ->
   MSCS.better_bottom_up_mscs seq = Raise (IndexError "list index out of range")) /\
  (seq <> [] ->
   exists (m : Z) (s e : nat),
     MSCS.better_bottom_up_mscs seq = Return (m, s, e) /\
     (s <= e < length seq)%nat /\ slice_sum seq s e = m /\
     forall i j : nat, (i <= j < length seq)%nat -> slice_sum seq i j <= m).
Proof.
  split; [by intros ->|]. intros Hne.
  destruct (better_bottom_up_spec seq Hne) as ([[m s] e] & Hrun & [Hrange Hsum] & Hmax).
  by exists m, s, e.
Qed.

(** X19. [bottom_up_mscs], which keeps its sums and starting indices in two
    lists, returns on every list exactly what [better_bottom_up_mscs]
    returns: none of its reads and writes falls outside the lists. *)
Theorem bottom_up_agrees_with_better_bottom_up (seq : list Z) :
  MSCS.bottom_up_mscs seq = MSCS.better_bottom_up_mscs seq.
Proof. apply bottom_up_same. Qed.

(** X20. On a list that is not empty the four functions return the same
    sum; the slice they name need not be the same, as on [[0, 1]]. *)
Theorem the_four_functions_find_the_same_sum (seq : list Z) :
  (seq <> [] ->
   exists (m : Z) (s1 e1 s2 e2 : nat),
     MSCS.brute_force_mscs seq = Return (m, s1, e1) /\
     MSCS.better_brute_force_mscs seq = Return (m, s1, e1) /\
     MSCS.bottom_up_mscs seq = Return (m, s2, e2) /\
     MSCS.better_bottom_up_mscs seq = Return (m, s2, e2)) /\
  MSCS.brute_force_mscs [0; 1] = Return (1, 0%nat, 1%nat) /\
  MSCS.better_bottom_up_mscs [0; 1] = Return (1, 1%nat, 1%nat).
Proof.
  split; [|by split]. intros Hne.
  destruct (brute_force_spec seq Hne) as ([[m1 s1] e1] & Hrun1 & [Hr1 Hs1] & Hmax1).
  destruct (better_bottom_up_spec seq Hne) as ([[m2 s2] e2] & Hrun2 & [Hr2 Hs2] & Hmax2).
  cbn [fst] in Hmax1, Hmax2.
  assert (m1 = m2) as <-.
  { pose proof (Hmax1 s2 e2 Hr2). pose proof (Hmax2 s1 e1 Hr1). lia. }
  exists m1, s1, e1, s2, e2.
  by rewrite better_brute_force_same, bottom_up_same.
Qed.

Example mscs_on_the_documented_sequence :
  MSCS.better_bottom_up_mscs [-2; 1; -3; 4; -1; 2; 1; -5; 4] = Return (6, 3%nat, 6%nat) /\
  MSCS.bottom_up_mscs [-2; 1; -3; 4; -1; 2; 1; -5; 4] = Return (6, 3%nat, 6%nat) /\
  MSCS.brute_force_mscs [-2; 1; -3; 4; -1; 2; 1; -5; 4] = Return (6, 3%nat, 6%nat) /\
  MSCS.better_brute_force_mscs [4; 2; -4] = Return (6, 0%nat, 1%nat).
Proof. repeat split; vm_compute; reflexivity. Qed.

Lemma brute_force_returns_a_maximal_slice_witness :
  exists (m : Z) (s e : nat),
    MSCS.brute_force_mscs [4; 2; -4] = Return (m, s, e) /\ slice_sum [4; 2; -4] s e = m.
Proof.
  destruct (brute_force_returns_a_maximal_slice [4; 2; -4]) as [_ Hsome].
  destruct (Hsome ltac:(discriminate)) as (m & s & e & Hrun & _ & Hsum & _).
  by exists m, s, e.
Defined.

Lemma better_bottom_up_returns_a_maximal_slice_witness :
  exists (m : Z) (s e : nat),
    MSCS.better_bottom_up_mscs [4; 2; -4] = Return (m, s, e) /\ slice_sum [4; 2; -4] s e = m.
Proof.
  destruct (better_bottom_up_returns_a_maximal_slice [4; 2; -4]) as [_ Hsome].
  destruct (Hsome ltac:(discriminate)) as (m & s & e & Hrun & _ & Hsum & _).
  by exists m, s, e.
Defined.

(** * The order of nodes *)

Lemma number_comparisons (a b : pyobj) (p q : pyfloat) :
  num_value a = Some p -> num_value b = Some q ->
  py_eq a b = Return (float_eq p q) /\
  py_le a b = Return (float_le p q) /\
  py_ge a b = Return (float_le q p).
Proof.
  intros Ha Hb.
  destruct a; try discriminate Ha; destruct b; try discriminate Hb;
    cbn in Ha, Hb; injection Ha as <-; injection Hb as <-; by repeat split.
Qed.

(** Two numbers of which none is a NaN are comparable. *)
Lemma float_le_total (p q : pyfloat) :
  is_nan p = false -> is_nan q = false ->
  float_le p q = true \/ float_le q p = true.
Proof.
  destruct p as [p|[]|], q as [q|[]|]; intros Hp Hq; try discriminate; cbn; auto.
  destruct (Qle_bool p q) eqn:Hpq; [by left|right].
  apply Qle_bool_iff. apply Qlt_le_weak, Qnot_le_lt.
  rewrite <- Qle_bool_iff. congruence.
Qed.

Lemma float_eq_le (p q : pyfloat) :
  float_eq p q = true -> float_le p q = true /\ float_le q p = true.
Proof.
  destruct p as [p|[]|], q as [q|[]|]; intros Heq; try discriminate; cbn; auto.
  cbn in Heq. apply Qeq_bool_iff in Heq.
  split; apply Qle_bool_iff; rewrite Heq; apply Qle_refl.
Qed.

Lemma float_nan_unordered (p q : pyfloat) :
  is_nan p || is_nan q = true ->
  float_le p q = false /\ float_le q p = false /\ float_eq p q = false.
Proof. destruct p as [p|[]|], q as [q|[]|]; intros Hn; try discriminate; by cbn. Qed.

(** X21. Two nodes whose keys are numbers ([bool], [int] or [float], the
    infinities and NaN included) are compared by their keys alone: each of
    [<], [>], [<=], [>=] returns, [a < b] is the negation of [a >= b] and
    [a > b] that of [a <= b].  When neither key is a NaN exactly one of
    [a < b], [a > b] and "[a <= b] and [a >= b]" holds; when one of them is
    a NaN, [a <= b], [a >= b] and [a == b] are all false, so that [a < b]
    and [a > b] are both true.  Nodes that are [==] are both [<=] and [>=]
    each other, and nodes whose keys differ are [!=], whatever their values
    are. *)
Theorem nodes_with_number_keys_are_ordered_by_key (a b : BHNode) (p q : pyfloat) :
  num_value (key a) = Some p -> num_value (key b) = Some q ->
  BHNode.__le__ a b = Return (float_le p q) /\
  BHNode.__ge__ a b = Return (float_le q p) /\
  BHNode.__lt__ a b = Return (negb (float_le q p)) /\
  BHNode.__gt__ a b = Return (negb (float_le p q)) /\
  (is_nan p = false -> is_nan q = false ->
   negb (float_le q p) = true /\ negb (float_le p q) = false /\ float_le p q = true \/
   negb (float_le p q) = true /\ negb (float_le q p) = false /\ float_le q p = true \/
   float_le p q = true /\ float_le q p = true) /\
  (is_nan p || is_nan q = true ->
   BHNode.__le__ a b = Return false /\ BHNode.__ge__ a b = Return false /\
   BHNode.__eq__ a b = Return false /\
   BHNode.__lt__ a b = Return true /\ BHNode.__gt__ a b = Return true) /\
  (BHNode.__eq__ a b = Return true -> float_le p q = true /\ float_le q p = true) /\
  (float_eq p q = false ->
   BHNode.__eq__ a b = Return false /\ BHNode.__ne__ a b = Return true).
Proof.
  intros Ha Hb. destruct (number_comparisons (key a) (key b) p q Ha Hb) as (Heq & Hle & Hge).
  unfold BHNode.__ne__, BHNode.__le__, BHNode.__ge__, BHNode.__lt__, BHNode.__gt__,
    BHNode.__eq__, BHNode.__ge__, BHNode.__le__.
  rewrite Heq, Hle, Hge. cbn [obind].
  split; [done|]. split; [done|]. split; [done|]. split; [done|].
  split; [|split; [|split; [|by intros ->]]].
  - intros Hp Hq. pose proof (float_le_total p q Hp Hq) as Htotal.
    destruct (float_le p q), (float_le q p); cbn [negb]; auto.
    destruct Htotal; discriminate.
  - intros Hn. destruct (float_nan_unordered p q Hn) as (-> & -> & ->). done.
  - destruct (float_eq p q) eqn:Hpq; [|discriminate].
    intros _. by apply float_eq_le.
Qed.

Lemma nodes_with_number_keys_are_ordered_by_key_witness :
  BHNode.__lt__ (mkBHNode (PyInt 1) (PyStr "a"))
                (mkBHNode (PyFloat (Finite (3 # 2))) (PyStr "b"))
    = Return true /\
  BHNode.__gt__ (mkBHNode (PyInt 1) (PyStr "a"))
                (mkBHNode (PyFloat (Finite (3 # 2))) (PyStr "b"))
    = Return false /\
  BHNode.__lt__ (mkBHNode (PyInt 1) (PyStr "a")) (mkBHNode (PyFloat NaN) (PyStr "b"))
    = Return true /\
  BHNode.__gt__ (mkBHNode (PyInt 1) (PyStr "a")) (mkBHNode (PyFloat NaN) (PyStr "b"))
    = Return true.
Proof.
  destruct (nodes_with_number_keys_are_ordered_by_key
              (mkBHNode (PyInt 1) (PyStr "a"))
              (mkBHNode (PyFloat (Finite (3 # 2))) (PyStr "b"))
              (Finite (inject_Z 1)) (Finite (3 # 2)) eq_refl eq_refl)
    as (_ & _ & Hlt & Hgt & _).
  destruct (nodes_with_number_keys_are_ordered_by_key
              (mkBHNode (PyInt 1) (PyStr "a")) (mkBHNode (PyFloat NaN) (PyStr "b"))
              (Finite (inject_Z 1)) NaN eq_refl eq_refl)
    as (_ & _ & _ & _ & _ & Hnan & _).
  destruct (Hnan eq_refl) as (_ & _ & _ & Hlt' & Hgt').
  split; [exact Hlt|]. split; [exact Hgt|]. split; [exact Hlt'|exact Hgt'].
Defined.
